(** * Helixque: screen-share state store, session coordinator and client hook

    A shallow embedding of the class [ScreenShareManager] (kept with the
    types of [backend/src/types/screenShare.ts]; [index.ts] imports it from
    [managers/ScreenShareManager]) and of the socket handlers of
    [backend/src/index.ts] that drive it, and of the client code that builds
    their requests (the hook [useScreenShare], the presets of the share modal
    and the texts of the share button), followed by the properties of the
    design document that concern them and by further properties read off the
    code.

    Conventions of the embedding.
    - A JavaScript [Map<string, V>] is a [gmap string V].
    - A JavaScript [number] holding a pixel count or a millisecond time stamp
      is a [Z]; the only falsy number is then [0].
    - An optional field ([f?: T]) and a value reached through optional chaining
      ([a?.b?.c]) is an [option], chained with [?>].
    - [Date.now()] is read from a clock oracle carried by the world.
    - [console.log] and [console.error] have no effect on the modelled
      state; they throw where the fault to inject says so.
    - A handler is given the fields of its payload: the payload is an object
      and its destructuring has succeeded; a room id is a string.  For
      [screenshare:start] the listener that receives the payload as it was
      sent, possibly missing, is modelled as well, and a room id that cannot
      be converted to a string by the faults it causes.
    - Handlers run in a state monad over the coordinator's world, with an
      output log of the messages handed to the transport and with exceptions;
      a handler with a [try] block takes the fault to inject, if any. *)

From stdpp Require Import gmap strings list fin_maps.
From Stdlib Require Import ZArith Lia.

Local Open Scope Z_scope.

(** ** Data model ([types/screenShare.ts]) *)

Module Constraints.

Record Range := { ideal : option Z; max : option Z }.

Record Video := {
  cursor : option string;
  displaySurface : option string;
  frameRate : option Range;
  width : option Range;
  height : option Range
}.

Inductive Audio :=
| AudioFlag (on : bool)
| AudioOptions (noiseSuppression echoCancellation autoGainControl : option bool).

(** [video] is declared mandatory in the interface, but the manager receives
    [constraints : any], guards every access with [?.] and is called with
    the literal [{}] by the media-state handler: the field may be missing. *)
Record t := { video : option Video; audio : option Audio }.

(** The object literal [{}]. *)
Definition empty : t := {| video := None; audio := None |}.

(** [{ video: { width: { ideal: w }, height: { ideal: h } } }] *)
Definition of_size (w h : option Z) : t :=
  {| video := Some {| cursor := None; displaySurface := None; frameRate := None;
                      width := Some {| ideal := w; max := None |};
                      height := Some {| ideal := h; max := None |} |};
     audio := None |}.

End Constraints.

Inductive Quality := low | medium | high | ultra.

#[global] Instance Quality_eq_dec : EqDecision Quality.
Proof. solve_decision. Defined.

Record ScreenShareState := {
  isScreenSharing : bool;
  micOn : bool;
  camOn : bool;
  quality : option Quality;
  displaySurface : option string
}.

Inductive ErrorType :=
| permission | not_supported | not_found | aborted | connection | unknown.

Record ScreenShareError := {
  err_name : string;
  err_message : string;
  err_code : option string;
  err_type : ErrorType
}.

Inductive EventType := ev_start | ev_stop | ev_error | ev_quality_change.

#[global] Instance EventType_eq_dec : EqDecision EventType.
Proof. solve_decision. Defined.

(** The [data?: any] field of an event, by the shapes the manager stores. *)
Inductive EventData :=
| NoData
| StartData (constraints : option Constraints.t)
| ErrorData (error : ScreenShareError).

Record ScreenShareEvent := {
  type : EventType;
  data : EventData;
  timestamp : Z;
  userId : string;
  roomId : string
}.

(** [event.data?.error] *)
Definition data_error (d : EventData) : option ScreenShareError :=
  match d with ErrorData e => Some e | _ => None end.

(** ** JavaScript's [a || d] on the value kinds the code applies it to *)

(** Numbers: [undefined] and [0] are falsy. *)
Definition num_or (a : option Z) (d : Z) : Z :=
  match a with
  | Some v => if v =? 0 then d else v
  | None => d
  end.

(** Strings: [undefined] and the empty string are falsy. *)
Definition str_or (a : option string) (d : string) : string :=
  match a with
  | Some EmptyString => d
  | Some s => s
  | None => d
  end.

(** Optional chaining: [a?.f] is [undefined] as soon as [a] is. *)
Definition chain {A B} (a : option A) (f : A -> option B) : option B :=
  match a with
  | Some x => f x
  | None => None
  end.

Infix "?>" := chain (at level 50, left associativity).

(** ** The state store ([class ScreenShareManager]) *)

Record ScreenShareManager := {
  activeScreenShares : gmap string ScreenShareState;
  screenShareHistory : gmap string (list ScreenShareEvent)
}.

(** [new ScreenShareManager()] *)
Definition new_manager : ScreenShareManager :=
  {| activeScreenShares := ∅; screenShareHistory := ∅ |}.

(** [constraints?.video?.width?.ideal] and [constraints?.video?.height?.ideal] *)
Definition ideal_width (constraints : option Constraints.t) : option Z :=
  constraints ?> Constraints.video ?> Constraints.width ?> Constraints.ideal.

Definition ideal_height (constraints : option Constraints.t) : option Z :=
  constraints ?> Constraints.video ?> Constraints.height ?> Constraints.ideal.

Definition ideal_frameRate (constraints : option Constraints.t) : option Z :=
  constraints ?> Constraints.video ?> Constraints.frameRate ?> Constraints.ideal.

Definition determineQuality (constraints : option Constraints.t) : Quality :=
  let width := num_or (ideal_width constraints) 1920 in
  let height := num_or (ideal_height constraints) 1080 in
  let frameRate := num_or (ideal_frameRate constraints) 30 in
  if (3840 <=? width) && (2160 <=? height) then ultra
  else if (2560 <=? width) && (1440 <=? height) then high
  else if (1920 <=? width) && (1080 <=? height) then medium
  else low.

(** [history.shift()] *)
Definition shift {A} (l : list A) : list A := tail l.

Definition addToHistory (m : ScreenShareManager) (userId : string)
    (event : ScreenShareEvent) : ScreenShareManager :=
  let history := default [] (screenShareHistory m !! userId) in
  let history := history ++ [event] in
  let history := if (50 <? length history)%nat then shift history else history in
  {| activeScreenShares := activeScreenShares m;
     screenShareHistory := <[userId := history]> (screenShareHistory m) |}.

(** [now] is the value [Date.now()] returns when the event is built. *)
Definition startScreenShare (m : ScreenShareManager) (now : Z)
    (userId roomId : string) (constraints : option Constraints.t)
  : ScreenShareManager * ScreenShareEvent :=
  let event := {| type := ev_start; data := StartData constraints;
                  timestamp := now; userId := userId; roomId := roomId |} in
  let m := {| activeScreenShares :=
                <[userId := {| isScreenSharing := true;
                               micOn := true;
                               camOn := false;
                               quality := Some (determineQuality constraints);
                               displaySurface :=
                                 Some (str_or (constraints ?> Constraints.video
                                                 ?> Constraints.displaySurface)
                                              "unknown") |}]>
                  (activeScreenShares m);
              screenShareHistory := screenShareHistory m |} in
  (addToHistory m userId event, event).

Definition stopScreenShare (m : ScreenShareManager) (now : Z)
    (userId roomId : string) : ScreenShareManager * ScreenShareEvent :=
  let event := {| type := ev_stop; data := NoData;
                  timestamp := now; userId := userId; roomId := roomId |} in
  let m :=
    match activeScreenShares m !! userId with
    | Some currentState =>
        {| activeScreenShares :=
             <[userId := {| isScreenSharing := false;
                            micOn := micOn currentState;
                            camOn := true;
                            quality := quality currentState;
                            displaySurface := displaySurface currentState |}]>
               (activeScreenShares m);
           screenShareHistory := screenShareHistory m |}
    | None => m
    end in
  (addToHistory m userId event, event).

Definition handleScreenShareError (m : ScreenShareManager) (now : Z)
    (userId roomId : string) (error : ScreenShareError)
  : ScreenShareManager * ScreenShareEvent :=
  let event := {| type := ev_error; data := ErrorData error;
                  timestamp := now; userId := userId; roomId := roomId |} in
  let m := {| activeScreenShares := delete userId (activeScreenShares m);
              screenShareHistory := screenShareHistory m |} in
  (addToHistory m userId event, event).

(** A stored state is an object, hence truthy: [get(userId) || null] is the
    lookup itself, with [None] for [null]. *)
Definition getScreenShareState (m : ScreenShareManager) (userId : string)
  : option ScreenShareState :=
  activeScreenShares m !! userId.

Definition getActiveScreenSharesInRoom (m : ScreenShareManager) (roomId : string)
  : gmap string ScreenShareState :=
  filter (λ kv, isScreenSharing kv.2 = true) (activeScreenShares m).

Definition cleanup (m : ScreenShareManager) (userId : string) : ScreenShareManager :=
  {| activeScreenShares := delete userId (activeScreenShares m);
     screenShareHistory := screenShareHistory m |}.

(** An array is truthy even when empty: [get(userId) || []]. *)
Definition getMetrics (m : ScreenShareManager) (userId : string)
  : list ScreenShareEvent :=
  default [] (screenShareHistory m !! userId).

(** ** The connection registry *)

Record User := { name : string; user_roomId : option string }.

(** Modelled from the spec: the class [UserManager] of [managers/UserManger],
    which [index.ts] imports and whose source is not available.  It is the
    Connection Registry of the design (section 4.1): one entry per live
    connection, [lookup(identity)] returns the entry or nothing, and [remove]
    deletes the entry and is idempotent. *)
Definition getUser (users : gmap string User) (id : string) : option User :=
  users !! id.

Definition removeUser (users : gmap string User) (id : string)
  : gmap string User :=
  delete id users.

(** ** Messages leaving the coordinator *)

(** The four ways the handlers address a message. *)
Inductive Target :=
| ToSocket (id : string)                 (* socket.emit(...) *)
| ToRoomExcept (room sender : string)    (* socket.to(room).emit(...) *)
| ToRoom (room : string)                 (* socket.nsp.to(room) / .in(room) *)
| Reply (id : string).                   (* the acknowledgement callback *)

Inductive Payload :=
| PeerStarted (userId : string) (state : option ScreenShareState) (timestamp : Z)
| StartSuccess (event : ScreenShareEvent)
| ErrorDetail (error : option ScreenShareError)
| PeerStoppedReason (userId reason : string) (timestamp : Z)
| ChatSystem (text : string) (ts : Z)
| RoomState (success : bool) (data : list (string * ScreenShareState))
| PeerMediaStateChange (isScreenSharing micOn camOn : option bool)
    (from userId : string)
| PeerStopped (userId : string) (state : option ScreenShareState) (timestamp : Z)
| StopSuccess (event : ScreenShareEvent)
| ErrorMessage (message : string)
| PeerQualityChanged (userId quality : string) (timestamp : Z)
| ScreenState (on : bool) (from : string)
| SdpFrom (sdp from : string)
| CandidateFrom (candidate from : string)
| MediaStateOf (micOn camOn : option bool)
| Toggle (on : bool)
| PeerState (micOn camOn : option bool)
| SdpRole (sdp role : string).

(** A message as handed to the transport; [receivers] are the connections the
    target resolves to in the room table at the moment of the call.  A reply
    through the acknowledgement callback bears the name of the request. *)
Record Sent := {
  target : Target;
  event_name : string;
  payload : Payload;
  receivers : list string
}.

(** [io.sockets.adapter.rooms.get(room) ?? new Set()]; a [Set<string>] is kept
    as the list of its elements in insertion order. *)
Definition members (rooms : gmap string (list string)) (room : string)
  : list string :=
  default [] (rooms !! room).

Definition resolve (rooms : gmap string (list string)) (t : Target)
  : list string :=
  match t with
  | ToSocket id => [id]
  | Reply id => [id]
  | ToRoomExcept room sender => filter (λ id, id ≠ sender) (members rooms room)
  | ToRoom room => members rooms room
  end.

(** ** The coordinator's world *)

Record World := {
  screenShareManager : ScreenShareManager;
  userManager : gmap string User;
  rooms : gmap string (list string);
  heartbeats : gmap string nat;
  intervals : gset nat;
  clock : nat -> Z;
  ticks : nat;
  outbox : list Sent
}.

Definition with_manager (w : World) (m : ScreenShareManager) : World :=
  {| screenShareManager := m; userManager := userManager w; rooms := rooms w;
     heartbeats := heartbeats w; intervals := intervals w;
     clock := clock w; ticks := ticks w; outbox := outbox w |}.

Definition with_users (w : World) (u : gmap string User) : World :=
  {| screenShareManager := screenShareManager w; userManager := u;
     rooms := rooms w; heartbeats := heartbeats w; intervals := intervals w;
     clock := clock w; ticks := ticks w; outbox := outbox w |}.

Definition with_timers (w : World) (h : gmap string nat) (i : gset nat) : World :=
  {| screenShareManager := screenShareManager w; userManager := userManager w;
     rooms := rooms w; heartbeats := h; intervals := i;
     clock := clock w; ticks := ticks w; outbox := outbox w |}.

Definition with_ticks (w : World) (n : nat) : World :=
  {| screenShareManager := screenShareManager w; userManager := userManager w;
     rooms := rooms w; heartbeats := heartbeats w; intervals := intervals w;
     clock := clock w; ticks := n; outbox := outbox w |}.

Definition with_outbox (w : World) (o : list Sent) : World :=
  {| screenShareManager := screenShareManager w; userManager := userManager w;
     rooms := rooms w; heartbeats := heartbeats w; intervals := intervals w;
     clock := clock w; ticks := ticks w; outbox := o |}.

(** ** Handlers: state, output and exceptions *)

(** A thrown value, as far as the catch block reads it: [error.name] and
    [error.message]. *)
Record Thrown := { thrown_name : option string; thrown_message : option string }.

Inductive Completion (A : Type) :=
| Normal (a : A)
| Throw (e : Thrown).

Arguments Normal {A} a.
Arguments Throw {A} e.

Definition Handler (A : Type) : Type := World -> Completion A * World.

Definition ret {A} (a : A) : Handler A := λ w, (Normal a, w).

Definition bind {A B} (c : Handler A) (k : A -> Handler B) : Handler B :=
  λ w, match c w with
       | (Normal a, w') => k a w'
       | (Throw e, w') => (Throw e, w')
       end.

Definition throw {A} (e : Thrown) : Handler A := λ w, (Throw e, w).

(** [try { body } catch (error) { handler(error) }] *)
Definition try_catch {A} (body : Handler A) (handler : Thrown -> Handler A)
  : Handler A :=
  λ w, match body w with
       | (Normal a, w') => (Normal a, w')
       | (Throw e, w') => handler e w'
       end.

Notation "'do' x <- c ; k" := (bind c (λ x, k))
  (at level 10, x name, c at level 100, k at level 200, only parsing).
Notation "c ;; k" := (bind c (λ _, k))
  (at level 100, k at level 200, right associativity, only parsing).

(** [Date.now()] *)
Definition date_now : Handler Z :=
  λ w, (Normal (clock w (ticks w)), with_ticks w (S (ticks w))).

Definition emit (t : Target) (event_name : string) (p : Payload) : Handler unit :=
  λ w, (Normal tt,
        with_outbox w (outbox w ++ [ {| target := t; event_name := event_name;
                                        payload := p;
                                        receivers := resolve (rooms w) t |} ])).

(** Calls into the state store. *)
Definition call {A} (f : ScreenShareManager -> ScreenShareManager * A) : Handler A :=
  λ w, let '(m, a) := f (screenShareManager w) in (Normal a, with_manager w m).

Definition read {A} (f : World -> A) : Handler A := λ w, (Normal (f w), w).

(** ** Where an exception may be raised in the [screenshare:start] handler

    The statements of the [try] block are the call of [startScreenShare], the
    broadcast, the acknowledgement and the log line.  A fault names the one
    that throws and the value thrown.  A throwing [emit] or [console.log] has
    no effect of its own; a throwing [startScreenShare] may have run any
    prefix of its statements, so the store it leaves behind, [leftover],
    is arbitrary.  The thrown value is an object, of which the catch block
    reads [name] and [message].

    The statements of the catch block are the call of
    [handleScreenShareError], the reply to the sender and the log line, and
    each of them may throw in turn: [in_catch] names the one that does, if
    any.  [handleScreenShareError] can only throw at its last statement
    before [return], the [console.error] whose template literal converts the
    room id to a string, when the store has been changed already.  A room id
    that has no primitive value, such as the object [{ toString: null }],
    makes that conversion throw, there and in the [console.log] that ends
    [startScreenShare]. *)
Inductive ThrowSite :=
| InStartScreenShare (leftover : ScreenShareManager)
| InPeerStarted
| InStartSuccess
| InLog.

Inductive CatchSite :=
| InHandleScreenShareError
| InErrorReply
| InErrorLog.

Record CatchFault := { catch_site : CatchSite; rethrown : Thrown }.

Record Fault :=
  { site : ThrowSite; thrown : Thrown; in_catch : option CatchFault }.

Definition catch_fault (fault : option Fault) : option CatchFault :=
  match fault with
  | Some f => in_catch f
  | None => None
  end.

Definition console_log (fault : option Fault) : Handler unit :=
  match fault with
  | Some {| site := InLog; thrown := e |} => throw e
  | _ => ret tt
  end.

Definition emit_peer_started (fault : option Fault) (t : Target) (p : Payload)
  : Handler unit :=
  match fault with
  | Some {| site := InPeerStarted; thrown := e |} => throw e
  | _ => emit t "screenshare:peer-started" p
  end.

Definition emit_start_success (fault : option Fault) (t : Target) (p : Payload)
  : Handler unit :=
  match fault with
  | Some {| site := InStartSuccess; thrown := e |} => throw e
  | _ => emit t "screenshare:start-success" p
  end.

Definition call_startScreenShare (fault : option Fault)
    (userId roomId : string) (constraints : option Constraints.t)
  : Handler ScreenShareEvent :=
  match fault with
  | Some {| site := InStartScreenShare leftover; thrown := e |} =>
      λ w, (Throw e, with_manager w leftover)
  | _ =>
      do now <- date_now;
      call (λ m, startScreenShare m now userId roomId constraints)
  end.

Definition call_handleScreenShareError (fault : option Fault)
    (userId roomId : string) (error : ScreenShareError)
  : Handler ScreenShareEvent :=
  do now <- date_now;
  do event <- call (λ m, handleScreenShareError m now userId roomId error);
  match catch_fault fault with
  | Some {| catch_site := InHandleScreenShareError; rethrown := e |} => throw e
  | _ => ret event
  end.

Definition emit_error (fault : option Fault) (t : Target) (p : Payload)
  : Handler unit :=
  match catch_fault fault with
  | Some {| catch_site := InErrorReply; rethrown := e |} => throw e
  | _ => emit t "screenshare:error" p
  end.

Definition console_error (fault : option Fault) : Handler unit :=
  match catch_fault fault with
  | Some {| catch_site := InErrorLog; rethrown := e |} => throw e
  | _ => ret tt
  end.

(** ** The handlers of [index.ts]; [id] is [socket.id] *)

(** The [try] block of the [screenshare:start] listener. *)
Definition screenshare_start_try (fault : option Fault) (id roomId : string)
    (constraints : option Constraints.t) : Handler unit :=
  do event <- call_startScreenShare fault id roomId constraints;
  do state <- read (λ w, getScreenShareState (screenShareManager w) id);
  emit_peer_started fault (ToRoomExcept roomId id)
    (PeerStarted id state (timestamp event)) ;;
  emit_start_success fault (ToSocket id) (StartSuccess event) ;;
  console_log fault.

(** Its [catch] block. *)
Definition screenshare_start_catch (fault : option Fault) (id roomId : string)
    (error : Thrown) : Handler unit :=
  do errorEvent <-
    call_handleScreenShareError fault id roomId
      {| err_name := str_or (thrown_name error) "UnknownError";
         err_message := str_or (thrown_message error)
                          "Failed to start screen sharing";
         err_code := None;
         err_type := unknown |};
  emit_error fault (ToSocket id) (ErrorDetail (data_error (data errorEvent))) ;;
  console_error fault.

(** The body of [socket.on("screenshare:start", async ({ roomId, constraints })
    => { try ... catch ... })], given the two fields taken from the payload;
    it has no [await], so it runs to completion when called. *)
Definition on_screenshare_start (fault : option Fault) (id roomId : string)
    (constraints : option Constraints.t) : Handler unit :=
  try_catch (screenshare_start_try fault id roomId constraints)
            (screenshare_start_catch fault id roomId).

(** The payload of [screenshare:start], as the client sent it. *)
Record StartPayload :=
  { payload_roomId : string; payload_constraints : option Constraints.t }.

(** What destructuring [undefined] or [null] throws. *)
Definition destructuring_error : Thrown :=
  {| thrown_name := Some "TypeError"; thrown_message := None |}.

(** The listener itself.  Its parameter [{ roomId, constraints }] is
    destructured when the listener is called, before the [try] block is
    entered: for an event emitted without payload that is where it ends, and
    what is thrown rejects the promise the [async] listener returns, with
    nobody to handle it. *)
Definition screenshare_start_listener (fault : option Fault) (id : string)
    (payload : option StartPayload) : Handler unit :=
  match payload with
  | None => throw destructuring_error
  | Some {| payload_roomId := roomId; payload_constraints := constraints |} =>
      on_screenshare_start fault id roomId constraints
  end.

(** The [reduce] over [Array.from(roomSockets)]. *)
Definition activeScreenShares_of (m : ScreenShareManager)
    (roomSockets : list string) : list (string * ScreenShareState) :=
  fold_left
    (λ acc socketId,
       match getScreenShareState m socketId with
       | Some state =>
           if isScreenSharing state then acc ++ [(socketId, state)] else acc
       | None => acc
       end)
    roomSockets [].

(** [socket.on("screenshare:get-room-state", ({ roomId }, callback) => ...)],
    for a request that comes with its callback; nothing in the [try] block
    throws then, and its [catch] is not reached. *)
Definition on_get_room_state (id roomId : string) : Handler unit :=
  do roomSockets <- read (λ w, members (rooms w) roomId);
  do activeScreenShares <-
    read (λ w, activeScreenShares_of (screenShareManager w) roomSockets);
  emit (Reply id) "screenshare:get-room-state" (RoomState true activeScreenShares).

(** A room id is used when it is a non-empty string: [if (roomId)]. *)
Definition truthy (s : option string) : option string :=
  match s with
  | Some EmptyString => None
  | other => other
  end.

(** [state?.isScreenSharing] in a condition *)
Definition sharing (state : option ScreenShareState) : bool :=
  match state with
  | Some s => isScreenSharing s
  | None => false
  end.

(** [socket.on("media-state-change", ({ isScreenSharing, micOn, camOn }) => ...)] *)
Definition on_media_state_change (id : string)
    (isScreenSharing micOn camOn : option bool) : Handler unit :=
  do roomId <- read (λ w, truthy (getUser (userManager w) id ?> user_roomId));
  match roomId with
  | Some roomId =>
      match isScreenSharing with
      | Some flag =>
          do currentState <- read (λ w, getScreenShareState (screenShareManager w) id);
          if flag && negb (sharing currentState) then
            do now <- date_now;
            call (λ m, startScreenShare m now id roomId (Some Constraints.empty)) ;;
            ret tt
          else if negb flag && sharing currentState then
            do now <- date_now;
            call (λ m, stopScreenShare m now id roomId) ;;
            ret tt
          else ret tt
      | None => ret tt
      end ;;
      emit (ToRoomExcept roomId id) "peer-media-state-change"
        (PeerMediaStateChange isScreenSharing micOn camOn id id)
  | None => ret tt
  end.

(** [clearInterval(heartbeats.get(id)!); heartbeats.delete(id)] *)
Definition stop_heartbeat (id : string) : Handler unit :=
  λ w, (Normal tt,
        with_timers w (delete id (heartbeats w))
          (match heartbeats w !! id with
           | Some h => intervals w ∖ {[h]}
           | None => intervals w
           end)).

(** [socket.on("disconnect", (reason) => ...)].  The transport has taken the
    connection out of every room before this listener runs, so [rooms] holds
    the remaining members. *)
Definition on_disconnect (id : string) : Handler unit :=
  stop_heartbeat id ;;
  call (λ m, (cleanup m id, tt)) ;;
  do u <- read (λ w, getUser (userManager w) id);
  match u, truthy (u ?> user_roomId) with
  | Some u, Some roomId =>
      do ts <- date_now;
      emit (ToRoom ("chat:" +:+ roomId)) "chat:system"
        (ChatSystem (name u +:+ " left the chat") ts) ;;
      do screenShareState <-
        read (λ w, getScreenShareState (screenShareManager w) id);
      if sharing screenShareState then
        do now <- date_now;
        emit (ToRoom roomId) "screenshare:peer-stopped"
          (PeerStoppedReason id "user-disconnected" now)
      else ret tt
  | _, _ => ret tt
  end ;;
  λ w, (Normal tt, with_users w (removeUser (userManager w) id)).

(** ** The other handlers of [index.ts] *)

Definition with_rooms (w : World) (r : gmap string (list string)) : World :=
  {| screenShareManager := screenShareManager w; userManager := userManager w;
     rooms := r; heartbeats := heartbeats w; intervals := intervals w;
     clock := clock w; ticks := ticks w; outbox := outbox w |}.

(** Modelled from the spec: [UserManager.setRoom], whose source is not
    available; [assignRoom] of the Connection Registry (section 4.1) sets the
    room field of a known identity and leaves an unknown one alone. *)
Definition setRoom (users : gmap string User) (id roomId : string)
  : gmap string User :=
  alter (λ u, {| name := name u; user_roomId := Some roomId |}) id users.

(** [socket.join(room)] of the transport: the connection is added to the
    member set of the room, which is created when missing; a set holds an
    element once. *)
Definition socket_join (rooms : gmap string (list string)) (room id : string)
  : gmap string (list string) :=
  let l := members rooms room in
  <[room := if decide (id ∈ l) then l else l ++ [id]]> rooms.

(** [socket.on("chat:join", ({ roomId }) => ...)] *)
Definition on_chat_join (id roomId : string) : Handler unit :=
  match truthy (Some roomId) with
  | Some roomId =>
      λ w, (Normal tt,
            with_rooms (with_users w (setRoom (userManager w) id roomId))
                       (socket_join (rooms w) roomId id))
  | None => ret tt
  end.

(** Where an exception may be raised in the [try] block of the
    [screenshare:stop] handler, as for the start handler. *)
Inductive StopThrowSite :=
| InStopScreenShare (leftover : ScreenShareManager)
| InPeerStopped
| InStopSuccess
| InStopLog.

Record StopFault := { stop_site : StopThrowSite; stop_thrown : Thrown }.

Definition call_stopScreenShare (fault : option StopFault) (userId roomId : string)
  : Handler ScreenShareEvent :=
  match fault with
  | Some {| stop_site := InStopScreenShare leftover; stop_thrown := e |} =>
      λ w, (Throw e, with_manager w leftover)
  | _ =>
      do now <- date_now;
      call (λ m, stopScreenShare m now userId roomId)
  end.

Definition emit_peer_stopped (fault : option StopFault) (t : Target) (p : Payload)
  : Handler unit :=
  match fault with
  | Some {| stop_site := InPeerStopped; stop_thrown := e |} => throw e
  | _ => emit t "screenshare:peer-stopped" p
  end.

Definition emit_stop_success (fault : option StopFault) (t : Target) (p : Payload)
  : Handler unit :=
  match fault with
  | Some {| stop_site := InStopSuccess; stop_thrown := e |} => throw e
  | _ => emit t "screenshare:stop-success" p
  end.

Definition stop_console_log (fault : option StopFault) : Handler unit :=
  match fault with
  | Some {| stop_site := InStopLog; stop_thrown := e |} => throw e
  | _ => ret tt
  end.

(** [socket.on("screenshare:stop", ({ roomId }) => ...)] *)
Definition on_screenshare_stop (fault : option StopFault) (id roomId : string)
  : Handler unit :=
  try_catch
    (do event <- call_stopScreenShare fault id roomId;
     do state <- read (λ w, getScreenShareState (screenShareManager w) id);
     emit_peer_stopped fault (ToRoomExcept roomId id)
       (PeerStopped id state (timestamp event)) ;;
     emit_stop_success fault (ToSocket id) (StopSuccess event) ;;
     stop_console_log fault)
    (λ error,
     emit (ToSocket id) "screenshare:error"
       (ErrorMessage "Failed to stop screen sharing")).

(** [socket.on("screenshare:quality-change", ({ roomId, quality }) => ...)];
    the quality is forwarded as the client sent it. *)
Definition on_quality_change (id roomId quality : string) : Handler unit :=
  do currentState <- read (λ w, getScreenShareState (screenShareManager w) id);
  if sharing currentState then
    do now <- date_now;
    emit (ToRoomExcept roomId id) "screenshare:peer-quality-changed"
      (PeerQualityChanged id quality now)
  else ret tt.

(** The handlers that only forward to the room: the event received, with
    the fields of its payload other than [roomId].  Session descriptions and
    candidates are opaque to the coordinator. *)
Inductive Relay :=
| screen_state (on : bool)
| screenshare_offer (sdp : string)
| screenshare_answer (sdp : string)
| screenshare_ice_candidate (candidate : string)
| media_state (micOn camOn : option bool)
| media_cam (on : bool)
| media_mic (on : bool)
| state_update (micOn camOn : option bool)
| renegotiate_offer (sdp role : string)
| renegotiate_answer (sdp role : string).

(** The event and payload each of them emits. *)
Definition relayed (id : string) (r : Relay) : string * Payload :=
  match r with
  | screen_state on => ("screen:state", ScreenState on id)
  | screenshare_offer sdp => ("screenshare:offer", SdpFrom sdp id)
  | screenshare_answer sdp => ("screenshare:answer", SdpFrom sdp id)
  | screenshare_ice_candidate candidate =>
      ("screenshare:ice-candidate", CandidateFrom candidate id)
  | media_state micOn camOn => ("peer:media-state", MediaStateOf micOn camOn)
  | media_cam on => ("media:cam", Toggle on)
  | media_mic on => ("media:mic", Toggle on)
  | state_update micOn camOn => ("peer:state", PeerState micOn camOn)
  | renegotiate_offer sdp role => ("renegotiate-offer", SdpRole sdp role)
  | renegotiate_answer sdp role => ("renegotiate-answer", SdpRole sdp role)
  end.

(** [socket.on(event, ({ roomId, ... }) => socket.to(roomId).emit(...))] *)
Definition on_relay (id roomId : string) (r : Relay) : Handler unit :=
  emit (ToRoomExcept roomId id) (relayed id r).1 (relayed id r).2.

(** ** The events a connection can raise, and their dispatch

    The listeners registered with [socket.on], run when nothing throws. *)
Inductive Event :=
| chat_join (id roomId : string)
| screenshare_start (id roomId : string) (constraints : option Constraints.t)
| screenshare_stop (id roomId : string)
| screenshare_quality_change (id roomId quality : string)
| screenshare_get_room_state (id roomId : string)
| forwarded (id roomId : string) (r : Relay)
| media_state_change (id : string) (isScreenSharing micOn camOn : option bool)
| disconnect (id : string).

Definition listener (e : Event) : Handler unit :=
  match e with
  | chat_join id roomId => on_chat_join id roomId
  | screenshare_start id roomId constraints =>
      on_screenshare_start None id roomId constraints
  | screenshare_stop id roomId => on_screenshare_stop None id roomId
  | screenshare_quality_change id roomId quality =>
      on_quality_change id roomId quality
  | screenshare_get_room_state id roomId => on_get_room_state id roomId
  | forwarded id roomId r => on_relay id roomId r
  | media_state_change id isScreenSharing micOn camOn =>
      on_media_state_change id isScreenSharing micOn camOn
  | disconnect id => on_disconnect id
  end.

(** The events are handled one after the other, each to completion. *)
Definition handle_all (events : list Event) (w : World) : World :=
  fold_left (λ w e, (listener e w).2) events w.

(** ** The client: constraints built by the hook and the modal *)

Module Hook.

(** The [video] part of the hook's [ScreenShareConstraints]; it has no
    [displaySurface]. *)
Record Video := {
  cursor : option string;
  frameRate : option Constraints.Range;
  width : option Constraints.Range;
  height : option Constraints.Range
}.

Inductive Audio :=
| AudioFlag (on : bool)
| AudioOptions (noiseSuppression echoCancellation : option bool).

(** [Partial<ScreenShareConstraints>]: either key may be missing. *)
Record Custom := { c_video : option Video; c_audio : option Audio }.

(** The constraints the hook hands to the browser and to the socket. *)
Record t := { video : Video; audio : option Audio }.

Definition defaultConstraints : t :=
  {| video := {| cursor := Some "always";
                 frameRate := Some {| Constraints.ideal := Some 30;
                                      Constraints.max := Some 60 |};
                 width := Some {| Constraints.ideal := Some 1920;
                                  Constraints.max := Some 3840 |};
                 height := Some {| Constraints.ideal := Some 1080;
                                   Constraints.max := Some 2160 |} |};
     audio := Some (AudioOptions (Some true) (Some false)) |}.

(** A key of the later object of a spread wins when it is there. *)
Definition spread {A} (earlier later : option A) : option A :=
  match later with
  | Some x => Some x
  | None => earlier
  end.

(** [{ ...defaultConstraints, ...customConstraints,
       video: { ...defaultConstraints.video, ...customConstraints?.video } }],
    with [None] for a call without custom constraints. *)
Definition constraints (customConstraints : option Custom) : t :=
  let d := video defaultConstraints in
  let custom_video := customConstraints ?> c_video in
  {| video := {| cursor := spread (cursor d) (custom_video ?> cursor);
                 frameRate := spread (frameRate d) (custom_video ?> frameRate);
                 width := spread (width d) (custom_video ?> width);
                 height := spread (height d) (custom_video ?> height) |};
     audio := spread (audio defaultConstraints) (customConstraints ?> c_audio) |}.

(** The object as the coordinator receives it in the payload of
    [screenshare:start]. *)
Definition on_the_wire (c : t) : Constraints.t :=
  {| Constraints.video :=
       Some {| Constraints.cursor := cursor (video c);
               Constraints.displaySurface := None;
               Constraints.frameRate := frameRate (video c);
               Constraints.width := width (video c);
               Constraints.height := height (video c) |};
     Constraints.audio :=
       match audio c with
       | Some (AudioFlag b) => Some (Constraints.AudioFlag b)
       | Some (AudioOptions ns ec) => Some (Constraints.AudioOptions ns ec None)
       | None => None
       end |}.

(** The message of the [catch] block of the hook's [startScreenShare], from
    the [name] and [message] of what was thrown. *)
Definition errorMessage (error : Thrown) : string :=
  if bool_decide (thrown_name error = Some "NotAllowedError")
  then "Screen sharing permission was denied"
  else if bool_decide (thrown_name error = Some "NotSupportedError")
  then "Screen sharing is not supported in this browser"
  else if bool_decide (thrown_name error = Some "NotFoundError")
  then "No screen capture source available"
  else if bool_decide (thrown_name error = Some "AbortError")
  then "Screen sharing was cancelled"
  else match thrown_message error with
       | Some EmptyString | None => "Failed to start screen sharing"
       | Some message => message
       end.

(** *** The calls of the hook

    A call of [startScreenShare] or [stopScreenShare] is run in one piece, on
    the state of the render it was made in; the browser's answers are given
    with the call, and the callbacks and toasts do not throw. *)

(** A media track, by its identity, and a captured stream. *)
Record Stream := { videoTracks : list nat; otherTracks : list nat }.

(** [stream.getTracks()] *)
Definition getTracks (s : Stream) : list nat := videoTracks s ++ otherTracks s.

(** The state kept with [useState]. *)
Record State := {
  isSharing : bool;
  isLoading : bool;
  error : option string;
  stream : option Stream;
  state_constraints : option t
}.

Definition initial : State :=
  {| isSharing := false; isLoading := false; error := None; stream := None;
     state_constraints := None |}.

(** What a call does to the outside. *)
Inductive Effect :=
| SocketEmit (event room : string) (sent : option t)
| OnError (message : string)
| OnScreenShareStart (started : Stream)
| OnScreenShareStop
| ToastWarning (text : string)
| ToastSuccess (title description : string)
| ToastError (title description : string).

(** The hook with its refs, the sender it was given ([None]: no sender;
    [Some track]: the track the sender carries, if any), the tracks on which
    [stop()] has been called, and the effects so far. *)
Record Client := {
  state : State;
  streamRef : option Stream;
  trackRef : option nat;
  videoSender : option (option nat);
  stopped : gset nat;
  effects : list Effect
}.

(** The props of a render: whether a socket is there, and the room id. *)
Record Props := { socket : bool; roomId : option string }.

(** The browser's answers to a call of [startScreenShare]: whether
    [getDisplayMedia] exists, what it resolves or rejects with, and whether
    [replaceTrack] rejects. *)
Record Browser := {
  supported : bool;
  displayMedia : Thrown + Stream;
  replaceTrack : option Thrown
}.

(** [new Error(message)] *)
Definition js_error (message : string) : Thrown :=
  {| thrown_name := Some "Error"; thrown_message := Some message |}.

Definition setState (f : State -> State) (c : Client) : Client :=
  {| state := f (state c); streamRef := streamRef c; trackRef := trackRef c;
     videoSender := videoSender c; stopped := stopped c; effects := effects c |}.

Definition set_refs (s : option Stream) (t : option nat) (c : Client) : Client :=
  {| state := state c; streamRef := s; trackRef := t;
     videoSender := videoSender c; stopped := stopped c; effects := effects c |}.

Definition set_sender (t : option nat) (c : Client) : Client :=
  {| state := state c; streamRef := streamRef c; trackRef := trackRef c;
     videoSender := Some t; stopped := stopped c; effects := effects c |}.

Definition stop_tracks (ts : list nat) (c : Client) : Client :=
  {| state := state c; streamRef := streamRef c; trackRef := trackRef c;
     videoSender := videoSender c; stopped := stopped c ∪ list_to_set ts;
     effects := effects c |}.

Definition perform (es : list Effect) (c : Client) : Client :=
  {| state := state c; streamRef := streamRef c; trackRef := trackRef c;
     videoSender := videoSender c; stopped := stopped c;
     effects := effects c ++ es |}.

(** [socket && roomId], as the room to address. *)
Definition connected (p : Props) : option string :=
  if socket p then truthy (roomId p) else None.

(** The [try] block of [startScreenShare]. *)
Definition start_attempt (room : string) (b : Browser)
    (customConstraints : option Custom) (c : Client) : Completion unit * Client :=
  if negb (supported b)
  then (Throw (js_error "Screen sharing is not supported in this browser"), c)
  else
    let constraints := constraints customConstraints in
    match displayMedia b with
    | inl rejected => (Throw rejected, c)
    | inr stream =>
        match videoTracks stream with
        | [] => (Throw (js_error "No video track available from screen capture"), c)
        | videoTrack :: _ =>
            let c := set_refs (Some stream) (Some videoTrack) c in
            match videoSender c, replaceTrack b with
            | Some _, Some rejected => (Throw rejected, c)
            | sender, _ =>
                let c := match sender with
                         | Some _ => set_sender (Some videoTrack) c
                         | None => c
                         end in
                let c := setState (λ prev,
                           {| isSharing := true; isLoading := false;
                              error := None; stream := Some stream;
                              state_constraints := Some constraints |}) c in
                (Normal tt,
                 perform [ SocketEmit "screenshare:start" room (Some constraints);
                           OnScreenShareStart stream;
                           ToastSuccess "Screen Share Started"
                                        "You are now sharing your screen" ] c)
            end
        end
    end.

Definition startScreenShare (p : Props) (b : Browser)
    (customConstraints : option Custom) (c : Client) : bool * Client :=
  match connected p with
  | None =>
      let error := "Socket or room ID not available" in
      (false,
       perform [OnError error]
         (setState (λ prev, {| isSharing := isSharing prev;
                               isLoading := isLoading prev;
                               error := Some error; stream := stream prev;
                               state_constraints := state_constraints prev |}) c))
  | Some room =>
      if isSharing (state c)
      then (false, perform [ToastWarning "Screen sharing is already active"] c)
      else
        let c := setState (λ prev, {| isSharing := isSharing prev;
                                      isLoading := true; error := None;
                                      stream := stream prev;
                                      state_constraints := state_constraints prev |})
                          c in
        match start_attempt room b customConstraints c with
        | (Normal _, c) => (true, c)
        | (Throw error, c) =>
            let errorMessage := errorMessage error in
            (false,
             perform [ OnError errorMessage;
                       ToastError "Screen Share Error" errorMessage ]
               (setState (λ prev, {| isSharing := isSharing prev;
                                     isLoading := false;
                                     error := Some errorMessage;
                                     stream := stream prev;
                                     state_constraints := state_constraints prev |})
                         c))
        end
  end.

(** [stopScreenShare]; [replaceTrack] is the browser's answer to
    [replaceTrack(null)]. *)
Definition stopScreenShare (p : Props) (replaceTrack : option Thrown) (c : Client)
  : bool * Client :=
  if negb (isSharing (state c)) then (false, c)
  else
    let c := match streamRef c with
             | Some s => stop_tracks (getTracks s) c
             | None => c
             end in
    match videoSender c, replaceTrack with
    | Some _, Some error =>
        let errorMessage := str_or (thrown_message error)
                                   "Failed to stop screen sharing" in
        (false,
         perform [ OnError errorMessage;
                   ToastError "Screen Share Error" errorMessage ]
           (setState (λ prev, {| isSharing := isSharing prev;
                                 isLoading := isLoading prev;
                                 error := Some errorMessage;
                                 stream := stream prev;
                                 state_constraints := state_constraints prev |})
                     c))
    | sender, _ =>
        let c := match sender with
                 | Some _ => set_sender None c
                 | None => c
                 end in
        let c := set_refs None None c in
        let c := setState (λ prev, {| isSharing := false;
                                      isLoading := isLoading prev;
                                      error := None; stream := None;
                                      state_constraints := None |}) c in
        (true,
         perform ((match connected p with
                   | Some room => [SocketEmit "screenshare:stop" room None]
                   | None => []
                   end)
                  ++ [ OnScreenShareStop;
                       ToastSuccess "Screen Share Stopped"
                                    "You have stopped sharing your screen" ]) c)
    end.

(** [toggleScreenShare] *)
Definition toggleScreenShare (p : Props) (b : Browser)
    (constraints : option Custom) (c : Client) : bool * Client :=
  if isSharing (state c) then stopScreenShare p (replaceTrack b) c
  else startScreenShare p b constraints c.

(** The socket messages among the effects. *)
Definition is_socket_emit (e : Effect) : bool :=
  match e with SocketEmit _ _ _ => true | _ => false end.

Definition socket_messages (es : list Effect) : list Effect :=
  filter (λ e, is_socket_emit e = true) es.

End Hook.

Module Modal.

Record QualityPreset := {
  id : string;
  name : string;
  description : string;
  constraints : Hook.Custom
}.

(** [{ video: { width: { ideal: w, max: w }, height: { ideal: h, max: h },
                frameRate: { ideal: f, max: f } } }] *)
Definition exactly (n : Z) : Constraints.Range :=
  {| Constraints.ideal := Some n; Constraints.max := Some n |}.

Definition fixed_size (w h f : Z) : Hook.Custom :=
  {| Hook.c_video := Some {| Hook.cursor := None;
                             Hook.frameRate := Some (exactly f);
                             Hook.width := Some (exactly w);
                             Hook.height := Some (exactly h) |};
     Hook.c_audio := None |}.

Definition qualityPresets : list QualityPreset :=
  [ {| id := "high"; name := "High Quality";
       description := "1080p @ 30fps - Recommended for presentations";
       constraints := fixed_size 1920 1080 30 |};
    {| id := "medium"; name := "Medium Quality";
       description := "720p @ 30fps - Good balance of quality and performance";
       constraints := fixed_size 1280 720 30 |};
    {| id := "ultra"; name := "Ultra Quality";
       description := "4K @ 60fps - For high-end displays (requires good connection)";
       constraints := fixed_size 3840 2160 60 |} ].

(** The argument [handleStartShare] passes to [onStartShare]:
    [{ ...preset.constraints, audio: includeAudio ? {...} : false }]; [None]
    when no preset has the selected id and it returns without calling. *)
Definition handleStartShare (selectedQuality : string) (includeAudio : bool)
  : option Hook.Custom :=
  match List.find (λ p, bool_decide (id p = selectedQuality)) qualityPresets with
  | Some preset =>
      Some {| Hook.c_video := Hook.c_video (constraints preset);
              Hook.c_audio :=
                Some (if includeAudio
                      then Hook.AudioOptions (Some true) (Some false)
                      else Hook.AudioFlag false) |}
  | None => None
  end.

End Modal.

(** ** The share button *)

Module Button.

(** The props the texts depend on. *)
Record Props := { isSharing : bool; isLoading : bool; disabled : bool }.

Definition getTooltipText (p : Props) : string :=
  if disabled p then "Screen sharing not available"
  else if isLoading p then "Processing..."
  else if isSharing p then "Stop screen share"
  else "Start screen share".

Definition getAriaLabel (p : Props) : string :=
  if isLoading p then "Screen share loading"
  else if isSharing p then "Stop screen sharing"
  else "Start screen sharing".

(** The [disabled] attribute of the button element. *)
Definition button_disabled (p : Props) : bool := disabled p || isLoading p.

End Button.

(** * Vocabulary of the properties *)

(** ** Observations on the message log *)

(** What a connection is handed: the messages of the log it is a receiver of. *)
Definition received (log : list Sent) (id : string) : list Sent :=
  filter (λ s, id ∈ receivers s) log.

(** The [screenshare:peer-stopped] notices with reason [user-disconnected]. *)
Definition is_disconnect_notice (s : Sent) : bool :=
  match payload s with
  | PeerStoppedReason _ reason _ =>
      bool_decide (event_name s = "screenshare:peer-stopped")
      && bool_decide (reason = "user-disconnected")
  | _ => false
  end.

(** A message addressed to a room rather than to one connection. *)
Definition to_room (s : Sent) : bool :=
  match target s with
  | ToRoomExcept _ _ | ToRoom _ => true
  | ToSocket _ | Reply _ => false
  end.

(** ** Quality tiers *)

(** The classification as the design document words it: thresholds tried from
    the highest tier down, the first one met wins, a value on a threshold
    belongs to the higher tier. *)
Definition classified (w h : Z) (q : Quality) : Prop :=
  (3840 <= w ∧ 2160 <= h ∧ q = ultra)
  ∨ (¬ (3840 <= w ∧ 2160 <= h) ∧ 2560 <= w ∧ 1440 <= h ∧ q = high)
  ∨ (¬ (3840 <= w ∧ 2160 <= h) ∧ ¬ (2560 <= w ∧ 1440 <= h)
     ∧ 1920 <= w ∧ 1080 <= h ∧ q = medium)
  ∨ (¬ (3840 <= w ∧ 2160 <= h) ∧ ¬ (2560 <= w ∧ 1440 <= h)
     ∧ ¬ (1920 <= w ∧ 1080 <= h) ∧ q = low).

(** [{ video: { height: { ideal: h } } }]: the width is absent. *)
Definition height_only (h : Z) : Constraints.t :=
  {| Constraints.video :=
       Some {| Constraints.cursor := None; Constraints.displaySurface := None;
               Constraints.frameRate := None; Constraints.width := None;
               Constraints.height :=
                 Some {| Constraints.ideal := Some h; Constraints.max := None |} |};
     Constraints.audio := None |}.

(** ** Histories *)

(** The [n] last elements of a list, in order. *)
Definition newest {A} (n : nat) (l : list A) : list A :=
  drop (length l - n) l.

(** What [addToHistory] does to the array: push, then drop the head when the
    length exceeds 50. *)
Definition push_bounded (history : list ScreenShareEvent) (event : ScreenShareEvent)
  : list ScreenShareEvent :=
  let history := history ++ [event] in
  if (50 <? length history)%nat then shift history else history.

(** The public operations of the store that change it, with their arguments. *)
Inductive Op :=
| OpStart (userId roomId : string) (constraints : option Constraints.t)
| OpStop (userId roomId : string)
| OpError (userId roomId : string) (error : ScreenShareError)
| OpCleanup (userId : string).

Definition apply_op (m : ScreenShareManager) (now : Z) (op : Op)
  : ScreenShareManager * list ScreenShareEvent :=
  match op with
  | OpStart u r c => let '(m, e) := startScreenShare m now u r c in (m, [e])
  | OpStop u r => let '(m, e) := stopScreenShare m now u r in (m, [e])
  | OpError u r err => let '(m, e) := handleScreenShareError m now u r err in (m, [e])
  | OpCleanup u => (cleanup m u, [])
  end.

(** Runs the calls in order; each comes with the clock reading it sees.
    Returns the final store and the events appended, in arrival order. *)
Fixpoint run_ops (m : ScreenShareManager) (calls : list (Z * Op))
  : ScreenShareManager * list ScreenShareEvent :=
  match calls with
  | [] => (m, [])
  | (now, op) :: rest =>
      let '(m1, es) := apply_op m now op in
      let '(m2, es') := run_ops m1 rest in
      (m2, es ++ es')
  end.

(** The events of one identity among those appended. *)
Definition events_of (u : string) (es : list ScreenShareEvent)
  : list ScreenShareEvent :=
  filter (λ e, userId e = u) es.

(** Fifty-one starts by one connection, each followed by a stop of another. *)
Definition fifty_one_starts : list (Z * Op) :=
  flat_map (λ n, [(Z.of_nat n, OpStart "u1" "r1" None);
                  (Z.of_nat n, OpStop "u2" "r1")])
           (seq 0 51).

Definition start_event_at (n : nat) : ScreenShareEvent :=
  {| type := ev_start; data := StartData None; timestamp := Z.of_nat n;
     userId := "u1"; roomId := "r1" |}.

(** ** Messages of the handlers *)

(** The departure notice of the chat, when the registry knows the connection
    and its room. *)
Definition departure_notice (w : World) (id : string) : list Sent :=
  match getUser (userManager w) id with
  | Some u =>
      match truthy (user_roomId u) with
      | Some roomId =>
          [ {| target := ToRoom ("chat:" +:+ roomId);
               event_name := "chat:system";
               payload := ChatSystem (name u +:+ " left the chat")
                                     (clock w (ticks w));
               receivers := members (rooms w) ("chat:" +:+ roomId) |} ]
      | None => []
      end
  | None => []
  end.

(** The broadcast and the acknowledgement of a start that went through. *)
Definition peer_started (w : World) (id roomId : string)
    (state : option ScreenShareState) (ts : Z) : Sent :=
  {| target := ToRoomExcept roomId id;
     event_name := "screenshare:peer-started";
     payload := PeerStarted id state ts;
     receivers := resolve (rooms w) (ToRoomExcept roomId id) |}.

Definition start_success (id : string) (event : ScreenShareEvent) : Sent :=
  {| target := ToSocket id;
     event_name := "screenshare:start-success";
     payload := StartSuccess event;
     receivers := [id] |}.

(** The error the catch block builds from the thrown value. *)
Definition start_error (e : Thrown) : ScreenShareError :=
  {| err_name := str_or (thrown_name e) "UnknownError";
     err_message := str_or (thrown_message e) "Failed to start screen sharing";
     err_code := None;
     err_type := unknown |}.

Definition error_reply (id : string) (e : Thrown) : Sent :=
  {| target := ToSocket id;
     event_name := "screenshare:error";
     payload := ErrorDetail (Some (start_error e));
     receivers := [id] |}.

(** The messages the [try] block has already sent when the fault strikes. *)
Definition sent_before (f : Fault) (w : World) (id roomId : string)
    (constraints : option Constraints.t) : list Sent :=
  let now := clock w (ticks w) in
  let committed := startScreenShare (screenShareManager w) now id roomId constraints in
  match site f with
  | InStartScreenShare _ => []
  | InPeerStarted => []
  | InStartSuccess =>
      [ peer_started w id roomId (getScreenShareState committed.1 id) now ]
  | InLog =>
      [ peer_started w id roomId (getScreenShareState committed.1 id) now;
        start_success id committed.2 ]
  end.

(** The fault strikes before the broadcast has been handed to the transport. *)
Definition precedes_broadcast (s : ThrowSite) : bool :=
  match s with
  | InStartScreenShare _ | InPeerStarted => true
  | InStartSuccess | InLog => false
  end.

(** The entry a room member contributes to the reply of the room-state query,
    if any. *)
Definition active_entry (m : ScreenShareManager) (socketId : string)
  : option (string * ScreenShareState) :=
  match getScreenShareState m socketId with
  | Some state => if isScreenSharing state then Some (socketId, state) else None
  | None => None
  end.

(** ** A session: two connections in room r1 *)

Definition alice : User := {| name := "alice"; user_roomId := Some "r1" |}.
Definition bob : User := {| name := "bob"; user_roomId := Some "r1" |}.

Definition full_hd : option Constraints.t :=
  Some (Constraints.of_size (Some 1920) (Some 1080)).

(** Both have joined, nobody shares. *)
Definition two_in_room : World :=
  {| screenShareManager := new_manager;
     userManager := {[ "u1" := alice; "u2" := bob ]};
     rooms := {[ "r1" := ["u1"; "u2"]; "chat:r1" := ["u1"; "u2"] ]};
     heartbeats := {[ "u1" := 1%nat; "u2" := 2%nat ]};
     intervals := {[ 1%nat; 2%nat ]};
     clock := λ n, 1000 + Z.of_nat n;
     ticks := 0;
     outbox := [] |}.

(** The first connection has sent [screenshare:start] for 1920 x 1080. *)
Definition first_sharing : World :=
  (on_screenshare_start None "u1" "r1" full_hd two_in_room).2.

(** The transport of a connection has closed: it is out of every room, and
    the log is read from here on. *)
Definition transport_closed (w : World) (id : string) : World :=
  {| screenShareManager := screenShareManager w; userManager := userManager w;
     rooms := filter (λ x, x ≠ id) <$> rooms w;
     heartbeats := heartbeats w; intervals := intervals w;
     clock := clock w; ticks := ticks w; outbox := [] |}.

Definition sharing_then_gone : World := transport_closed first_sharing "u1".

(** A third connection shares in another room. *)
Definition one_sharing : World :=
  with_outbox (on_screenshare_start None "u3" "r2" None first_sharing).2 [].

(** ** Vocabulary of the further properties *)

(** *** Runs of store operations *)

(** The identity an operation is about. *)
Definition op_user (op : Op) : string :=
  match op with
  | OpStart u _ _ | OpStop u _ | OpError u _ _ | OpCleanup u => u
  end.

Definition is_start (op : Op) : bool :=
  match op with OpStart _ _ _ => true | _ => false end.

Definition is_stop (op : Op) : bool :=
  match op with OpStop _ _ => true | _ => false end.

(** The operations that append to the history. *)
Definition records (op : Op) : bool :=
  match op with OpCleanup _ => false | _ => true end.

(** The operations of a run that are about one identity, in order. *)
Definition ops_on (u : string) (calls : list (Z * Op)) : list Op :=
  filter (λ op, op_user op = u) calls.*2.

(** The tiers in ascending order. *)
Definition tier_rank (q : Quality) : nat :=
  match q with low => 0 | medium => 1 | high => 2 | ultra => 3 end.

(** The entry [startScreenShare] stores, and what [stopScreenShare] makes of
    an entry. *)
Definition fresh_state (c : option Constraints.t) : ScreenShareState :=
  {| isScreenSharing := true; micOn := true; camOn := false;
     quality := Some (determineQuality c);
     displaySurface :=
       Some (str_or (c ?> Constraints.video ?> Constraints.displaySurface)
                    "unknown") |}.

Definition stopped_state (st : ScreenShareState) : ScreenShareState :=
  {| isScreenSharing := false; micOn := micOn st; camOn := true;
     quality := quality st; displaySurface := displaySurface st |}.

(** The entry a run leaves for an identity, read off the calls about it:
    the last call other than a stop decides whether there is one, and a stop
    at the end marks it. *)
Definition entry_of (ops : list Op) : option ScreenShareState :=
  match last (filter (λ op, is_stop op = false) ops) with
  | Some (OpStart _ _ c) =>
      Some (match last ops with
            | Some (OpStop _ _) => stopped_state (fresh_state c)
            | _ => fresh_state c
            end)
  | _ => None
  end.

(** What holds of every entry of a store that started empty. *)
Definition well_formed_entry (m : ScreenShareManager) (u : string) : Prop :=
  ∀ st, getScreenShareState m u = Some st ->
    micOn st = true
    ∧ camOn st = negb (isScreenSharing st)
    ∧ is_Some (quality st)
    ∧ (∃ surface, displaySurface st = Some surface ∧ surface ≠ "")
    ∧ ∃ e, last (getMetrics m u) = Some e
           ∧ type e = (if isScreenSharing st then ev_start else ev_stop).

(** *** Messages of the other handlers *)

Definition peer_stopped (w : World) (id room : string)
    (state : option ScreenShareState) (ts : Z) : Sent :=
  {| target := ToRoomExcept room id;
     event_name := "screenshare:peer-stopped";
     payload := PeerStopped id state ts;
     receivers := resolve (rooms w) (ToRoomExcept room id) |}.

Definition stop_success (id : string) (event : ScreenShareEvent) : Sent :=
  {| target := ToSocket id;
     event_name := "screenshare:stop-success";
     payload := StopSuccess event;
     receivers := [id] |}.

Definition stop_error_reply (id : string) : Sent :=
  {| target := ToSocket id;
     event_name := "screenshare:error";
     payload := ErrorMessage "Failed to stop screen sharing";
     receivers := [id] |}.

(** The store the [try] block of the stop handler has reached, and the
    messages it has sent, when the fault strikes. *)
Definition store_at_stop_fault (f : StopFault) (w : World) (id room : string)
  : ScreenShareManager :=
  match stop_site f with
  | InStopScreenShare leftover => leftover
  | _ => (stopScreenShare (screenShareManager w) (clock w (ticks w)) id room).1
  end.

Definition sent_before_stop_fault (f : StopFault) (w : World) (id room : string)
  : list Sent :=
  let now := clock w (ticks w) in
  let stopped := stopScreenShare (screenShareManager w) now id room in
  match stop_site f with
  | InStopScreenShare _ => []
  | InPeerStopped => []
  | InStopSuccess =>
      [ peer_stopped w id room (getScreenShareState stopped.1 id) now ]
  | InStopLog =>
      [ peer_stopped w id room (getScreenShareState stopped.1 id) now;
        stop_success id stopped.2 ]
  end.

Definition quality_changed (w : World) (id room quality : string) : Sent :=
  {| target := ToRoomExcept room id;
     event_name := "screenshare:peer-quality-changed";
     payload := PeerQualityChanged id quality (clock w (ticks w));
     receivers := resolve (rooms w) (ToRoomExcept room id) |}.

Definition media_state_changed (w : World) (id room : string)
    (isScreenSharing micOn camOn : option bool) : Sent :=
  {| target := ToRoomExcept room id;
     event_name := "peer-media-state-change";
     payload := PeerMediaStateChange isScreenSharing micOn camOn id id;
     receivers := resolve (rooms w) (ToRoomExcept room id) |}.

(** The store after the reconciliation of the media-state handler. *)
Definition reconciled (m : ScreenShareManager) (now : Z) (id room : string)
    (flag : bool) : ScreenShareManager :=
  if bool_decide (flag = sharing (getScreenShareState m id)) then m
  else if flag then (startScreenShare m now id room (Some Constraints.empty)).1
  else (stopScreenShare m now id room).1.

(** *** The room-state reply *)

(** The connection is among those the room-state reply for the room lists. *)
Definition listed (w : World) (room id : string) : Prop :=
  id ∈ (activeScreenShares_of (screenShareManager w) (members (rooms w) room)).*1.

(** *** The client *)

(** The tier the modal's label of a preset suggests is not the tier the
    coordinator stores: what it stores for each preset id. *)
Definition stored_tier (presetId : string) : Quality :=
  if bool_decide (presetId = "ultra") then ultra
  else if bool_decide (presetId = "high") then medium
  else low.

(** A render with a socket and a room, a browser that grants the capture of
    one video and one audio track, and a client with a camera track on its
    sender. *)
Definition in_room : Hook.Props :=
  {| Hook.socket := true; Hook.roomId := Some "r1" |}.

Definition screen_and_sound : Hook.Stream :=
  {| Hook.videoTracks := [7%nat]; Hook.otherTracks := [8%nat] |}.

Definition granting : Hook.Browser :=
  {| Hook.supported := true; Hook.displayMedia := inr screen_and_sound;
     Hook.replaceTrack := None |}.

Definition rejecting_replacement : Hook.Browser :=
  {| Hook.supported := true; Hook.displayMedia := inr screen_and_sound;
     Hook.replaceTrack :=
       Some {| thrown_name := Some "InvalidModificationError";
               thrown_message := None |} |}.

Definition on_camera : Hook.Client :=
  {| Hook.state := Hook.initial; Hook.streamRef := None; Hook.trackRef := None;
     Hook.videoSender := Some (Some 1%nat); Hook.stopped := ∅;
     Hook.effects := [] |}.

(** * Properties *)

(** ** Quality tiers *)

Lemma num_or_nonzero (v d : Z) : v ≠ 0 -> num_or (Some v) d = v.
Proof. intros Hv. unfold num_or. destruct (Z.eqb_spec v 0); congruence. Qed.

Lemma determineQuality_sizes (c : option Constraints.t) :
  determineQuality c =
    let width := num_or (ideal_width c) 1920 in
    let height := num_or (ideal_height c) 1080 in
    if (3840 <=? width) && (2160 <=? height) then ultra
    else if (2560 <=? width) && (1440 <=? height) then high
    else if (1920 <=? width) && (1080 <=? height) then medium
    else low.
Proof. reflexivity. Qed.

Ltac split_thresholds :=
  repeat match goal with
         | |- context [?a <=? ?b] => destruct (Z.leb_spec a b)
         end; simpl.

(** C2 (amended).  The tier is a function of the requested width and height
    alone, a width that is absent or 0 being first replaced by 1920 and a
    height that is absent or 0 by 1080: on the resulting pair the thresholds
    decide, in descending order with the first match winning, whatever else
    the constraints hold.  For a width and a height that are both present and
    different from 0 the resulting pair is the requested one. *)
Theorem determineQuality_classified (c : option Constraints.t) :
  classified (num_or (ideal_width c) 1920) (num_or (ideal_height c) 1080)
    (determineQuality c)
  ∧ (∀ w h : Z,
       ideal_width c = Some w -> ideal_height c = Some h -> w ≠ 0 -> h ≠ 0 ->
       classified w h (determineQuality c)).
Proof.
  assert (classified (num_or (ideal_width c) 1920) (num_or (ideal_height c) 1080)
            (determineQuality c)) as Hlaw.
  { rewrite determineQuality_sizes. cbv zeta. unfold classified.
    split_thresholds; first [ left; split_and?; (lia || reflexivity)
                            | right; left; split_and?; (lia || reflexivity)
                            | right; right; left; split_and?; (lia || reflexivity)
                            | right; right; right; split_and?; (lia || reflexivity) ]. }
  split; [exact Hlaw |].
  intros w h Hw Hh Hw0 Hh0. rewrite Hw, Hh in Hlaw.
  rewrite !num_or_nonzero in Hlaw by assumption. exact Hlaw.
Qed.

Lemma classified_functional (w h : Z) (q q' : Quality) :
  classified w h q -> classified w h q' -> q = q'.
Proof. unfold classified. intros H H'. intuition congruence. Qed.

(** The values the design document lists, thresholds included. *)
Example determineQuality_boundaries :
  determineQuality (Some (Constraints.of_size (Some 3840) (Some 2160))) = ultra
  ∧ determineQuality (Some (Constraints.of_size (Some 2560) (Some 1440))) = high
  ∧ determineQuality (Some (Constraints.of_size (Some 1920) (Some 1080))) = medium
  ∧ determineQuality (Some (Constraints.of_size (Some 640) (Some 480))) = low
  ∧ determineQuality (Some (Constraints.of_size (Some 3839) (Some 2160))) = high
  ∧ determineQuality (Some (Constraints.of_size (Some 3840) (Some 2159))) = high.
Proof. repeat split. Qed.

Lemma determineQuality_classified_witness :
  classified 3840 2160
    (determineQuality (Some (Constraints.of_size (Some 3840) (Some 2160))))
  ∧ classified 640 480
      (determineQuality (Some (Constraints.of_size (Some 640) (Some 480))))
  ∧ classified 1920 480
      (determineQuality (Some (Constraints.of_size (Some 0) (Some 480))))
  ∧ classified 1920 1080 (determineQuality None).
Proof.
  split_and!.
  - apply (proj2 (determineQuality_classified
                    (Some (Constraints.of_size (Some 3840) (Some 2160))))
             3840 2160);
      [reflexivity | reflexivity | lia | lia].
  - apply (proj2 (determineQuality_classified
                    (Some (Constraints.of_size (Some 640) (Some 480))))
             640 480);
      [reflexivity | reflexivity | lia | lia].
  - exact (proj1 (determineQuality_classified
                    (Some (Constraints.of_size (Some 0) (Some 480))))).
  - exact (proj1 (determineQuality_classified None)).
Defined.

(** C2 as worded fails for a requested size of 0 x 0: [0 || 1920]
    is 1920 and [0 || 1080] is 1080, so the tier is medium although no
    threshold is met by the request. *)
Lemma determineQuality_zero_not_classified :
  ideal_width (Some (Constraints.of_size (Some 0) (Some 0))) = Some 0
  ∧ ideal_height (Some (Constraints.of_size (Some 0) (Some 0))) = Some 0
  ∧ determineQuality (Some (Constraints.of_size (Some 0) (Some 0))) = medium
  ∧ ¬ classified 0 0 (determineQuality (Some (Constraints.of_size (Some 0) (Some 0)))).
Proof.
  repeat split. unfold classified. simpl. intros H.
  repeat destruct H as [H | H]; destruct_and?; try lia; discriminate.
Qed.

(** ** Defaults for missing dimensions *)

Lemma startScreenShare_state (m : ScreenShareManager) (now : Z)
    (u r : string) (c : option Constraints.t) :
  getScreenShareState (startScreenShare m now u r c).1 u =
    Some {| isScreenSharing := true; micOn := true; camOn := false;
            quality := Some (determineQuality c);
            displaySurface :=
              Some (str_or (c ?> Constraints.video ?> Constraints.displaySurface)
                           "unknown") |}.
Proof. unfold getScreenShareState. simpl. apply lookup_insert_eq. Qed.




(** ** The bounded history *)

Lemma getMetrics_addToHistory (m : ScreenShareManager) (u v : string)
    (e : ScreenShareEvent) :
  getMetrics (addToHistory m u e) v =
    if decide (u = v) then push_bounded (getMetrics m u) e else getMetrics m v.
Proof.
  unfold getMetrics, addToHistory. simpl. rewrite lookup_insert.
  destruct (decide (u = v)); reflexivity.
Qed.

Lemma activeScreenShares_addToHistory (m : ScreenShareManager) (u : string)
    (e : ScreenShareEvent) :
  activeScreenShares (addToHistory m u e) = activeScreenShares m.
Proof. reflexivity. Qed.

Lemma last_push_bounded (l : list ScreenShareEvent) (e : ScreenShareEvent) :
  last (push_bounded l e) = Some e.
Proof.
  unfold push_bounded. destruct l as [| x l]; [reflexivity |].
  simpl. destruct (50 <? S (length (l ++ [e])))%nat; simpl.
  - apply last_snoc.
  - rewrite app_comm_cons. apply last_snoc.
Qed.

Lemma newest_length {A} (n : nat) (l : list A) :
  length (newest n l) = Nat.min n (length l).
Proof. unfold newest. rewrite length_drop. lia. Qed.

Lemma newest_push (l : list ScreenShareEvent) (e : ScreenShareEvent) :
  push_bounded (newest 50 l) e = newest 50 (l ++ [e]).
Proof.
  unfold push_bounded, newest. rewrite !length_app, length_drop. simpl.
  destruct (Nat.ltb_spec 50 (length l - (length l - 50) + 1)) as [Hlong | Hshort].
  - assert (50 <= length l)%nat by lia.
    destruct (drop (length l - 50) l) as [| x rest] eqn:Hdrop.
    + apply (f_equal length) in Hdrop. rewrite length_drop in Hdrop.
      simpl in Hdrop. lia.
    + simpl. replace (length l + 1 - 50)%nat with (S (length l - 50)) by lia.
      rewrite drop_app_le by lia.
      replace (S (length l - 50)) with (length l - 50 + 1)%nat by lia.
      rewrite <- drop_drop, Hdrop. reflexivity.
  - assert (length l < 50)%nat by lia.
    replace (length l - 50)%nat with 0%nat by lia.
    replace (length l + 1 - 50)%nat with 0%nat by lia. reflexivity.
Qed.

Lemma apply_op_history (m : ScreenShareManager) (now : Z) (op : Op) (u : string)
    (past : list ScreenShareEvent) :
  getMetrics m u = newest 50 past ->
  getMetrics (apply_op m now op).1 u
    = newest 50 (past ++ events_of u (apply_op m now op).2).
Proof.
  intros Hpast. unfold events_of.
  destruct op as [v r c | v r | v r err | v]; simpl;
    try (rewrite getMetrics_addToHistory; unfold getMetrics at 1 2; simpl;
         fold (getMetrics m v); fold (getMetrics m u);
         rewrite filter_cons, filter_nil; simpl;
         destruct (decide (v = u)) as [-> | Hne];
         [ rewrite Hpast; apply newest_push
         | rewrite app_nil_r; exact Hpast ]).
  - destruct (activeScreenShares m !! v); simpl;
      rewrite getMetrics_addToHistory; unfold getMetrics at 1 2; simpl;
      fold (getMetrics m v); fold (getMetrics m u);
      rewrite filter_cons, filter_nil; simpl;
      (destruct (decide (v = u)) as [-> | Hne];
       [ rewrite Hpast; apply newest_push
       | rewrite app_nil_r; exact Hpast ]).
  - rewrite filter_nil, app_nil_r. exact Hpast.
Qed.

Lemma run_ops_history (calls : list (Z * Op)) :
  ∀ (m : ScreenShareManager) (u : string) (past : list ScreenShareEvent),
    getMetrics m u = newest 50 past ->
    getMetrics (run_ops m calls).1 u
      = newest 50 (past ++ events_of u (run_ops m calls).2).
Proof.
  induction calls as [| [now op] rest IH]; intros m u past Hpast; simpl.
  - unfold events_of. rewrite filter_nil, app_nil_r. exact Hpast.
  - pose proof (apply_op_history m now op u past Hpast) as Hstep.
    destruct (apply_op m now op) as [m1 es]. simpl in Hstep.
    specialize (IH m1 u _ Hstep).
    destruct (run_ops m1 rest) as [m2 es']. simpl in *.
    rewrite IH. unfold events_of. rewrite filter_app, app_assoc. reflexivity.
Qed.

(** C3.  Whatever calls are made on a fresh store, the history kept for an
    identity is the run of its most recent events, at most 50, oldest first;
    once 51 events have been appended for it, the first is gone and the 50
    that followed remain in arrival order. *)
Theorem history_bounded_fifo (calls : list (Z * Op)) (u : string) :
  let m := (run_ops new_manager calls).1 in
  let appended := events_of u (run_ops new_manager calls).2 in
  (length (getMetrics m u) <= 50)%nat
  ∧ getMetrics m u = newest 50 appended
  ∧ (∀ oldest rest, appended = oldest :: rest -> length rest = 50%nat ->
     getMetrics m u = rest).
Proof.
  intros m appended.
  assert (Hhist : getMetrics m u = newest 50 appended).
  { apply (run_ops_history calls new_manager u []). reflexivity. }
  split_and!.
  - rewrite Hhist, newest_length. lia.
  - exact Hhist.
  - intros oldest rest Heq Hlen. rewrite Hhist, Heq. unfold newest. simpl.
    rewrite Hlen. reflexivity.
Qed.

Lemma history_bounded_fifo_witness :
  getMetrics (run_ops new_manager fifty_one_starts).1 "u1"
    = map start_event_at (seq 1 50).
Proof.
  destruct (history_bounded_fifo fifty_one_starts "u1") as (_ & _ & Hevict).
  apply (Hevict (start_event_at 0) (map start_event_at (seq 1 50))).
  - vm_compute. reflexivity.
  - vm_compute. reflexivity.
Defined.

(** ** Errors, stops and clean-up in the store *)

(** C4.  [handleScreenShareError] removes the identity's entry from the table
    of active shares, so that a later [getScreenShareState] finds nothing, and
    appends to its history the error event it returns, which carries the error
    it was given. *)
Theorem handleScreenShareError_clears (m : ScreenShareManager) (now : Z)
    (u r : string) (err : ScreenShareError) :
  let m' := (handleScreenShareError m now u r err).1 in
  let event := (handleScreenShareError m now u r err).2 in
  activeScreenShares m' = delete u (activeScreenShares m)
  ∧ getScreenShareState m' u = None
  ∧ event = {| type := ev_error; data := ErrorData err; timestamp := now;
               userId := u; roomId := r |}
  ∧ getMetrics m' u = push_bounded (getMetrics m u) event
  ∧ last (getMetrics m' u) = Some event.
Proof.
  simpl. split_and!.
  - reflexivity.
  - unfold getScreenShareState. simpl. apply lookup_delete_eq.
  - reflexivity.
  - rewrite getMetrics_addToHistory. rewrite decide_True by reflexivity.
    reflexivity.
  - rewrite getMetrics_addToHistory. rewrite decide_True by reflexivity.
    apply last_push_bounded.
Qed.

(** C5.  [stopScreenShare] always returns a stop event.  Without an entry for
    the identity the table of active shares is left as it is, so none is
    created; with one, the entry keeps its other fields, stops sharing and has
    the camera back on. *)
Theorem stopScreenShare_idempotent (m : ScreenShareManager) (now : Z)
    (u r : string) :
  let m' := (stopScreenShare m now u r).1 in
  let event := (stopScreenShare m now u r).2 in
  event = {| type := ev_stop; data := NoData; timestamp := now;
             userId := u; roomId := r |}
  ∧ (getScreenShareState m u = None ->
     getScreenShareState m' u = None
     ∧ activeScreenShares m' = activeScreenShares m)
  ∧ (∀ st, getScreenShareState m u = Some st ->
     getScreenShareState m' u =
       Some {| isScreenSharing := false; micOn := micOn st; camOn := true;
               quality := quality st; displaySurface := displaySurface st |}).
Proof.
  unfold getScreenShareState. simpl. split_and!.
  - reflexivity.
  - intros Hnone. rewrite Hnone. simpl. split; [exact Hnone | reflexivity].
  - intros st Hst. rewrite Hst. simpl. apply lookup_insert_eq.
Qed.

Lemma stopScreenShare_idempotent_witness :
  getScreenShareState (stopScreenShare new_manager 7 "u1" "r1").1 "u1" = None
  ∧ (getScreenShareState
       (stopScreenShare (startScreenShare new_manager 5 "u1" "r1" None).1
                        7 "u1" "r1").1 "u1"
       ?> (λ st, Some (isScreenSharing st, camOn st))) = Some (false, true).
Proof.
  split.
  - destruct (stopScreenShare_idempotent new_manager 7 "u1" "r1")
      as (_ & Hidle & _).
    apply Hidle. reflexivity.
  - destruct (stopScreenShare_idempotent
                (startScreenShare new_manager 5 "u1" "r1" None).1 7 "u1" "r1")
      as (_ & _ & Hactive).
    erewrite Hactive; [reflexivity | apply startScreenShare_state].
Defined.

(** ** The disconnect handler *)

(** The handler returns normally; the store it leaves is the one [cleanup]
    gives, and the only message it can add is the departure notice: the test
    on [getScreenShareState] comes after [cleanup] and finds no state. *)
Lemma on_disconnect_run (id : string) (w : World) :
  ∃ w', on_disconnect id w = (Normal tt, w')
        ∧ screenShareManager w' = cleanup (screenShareManager w) id
        ∧ userManager w' = removeUser (userManager w) id
        ∧ rooms w' = rooms w
        ∧ outbox w' = outbox w ++ departure_notice w id.
Proof.
  unfold on_disconnect, departure_notice, bind, call, read, stop_heartbeat. simpl.
  destruct (getUser (userManager w) id) as [u |]; simpl.
  - destruct (truthy (user_roomId u)) as [roomId |]; simpl.
    + unfold getScreenShareState. simpl. rewrite lookup_delete_eq. simpl.
      eexists. split; [reflexivity |]. simpl. repeat split.
    + eexists. split; [reflexivity |]. simpl.
      rewrite app_nil_r. repeat split.
  - eexists. split; [reflexivity |]. simpl. rewrite app_nil_r. repeat split.
Qed.

Lemma departure_notice_not_stop (w : World) (id : string) :
  filter (λ s, is_disconnect_notice s = true) (departure_notice w id) = [].
Proof.
  unfold departure_notice.
  destruct (getUser (userManager w) id) as [u |]; [| reflexivity].
  destruct (truthy (user_roomId u)); reflexivity.
Qed.

(** No run of the disconnect handler emits a [screenshare:peer-stopped]
    notice, whatever the state before. *)
Lemma on_disconnect_never_notifies (id : string) (w : World) :
  filter (λ s, is_disconnect_notice s = true) (outbox (on_disconnect id w).2)
    = filter (λ s, is_disconnect_notice s = true) (outbox w).
Proof.
  destruct (on_disconnect_run id w) as (w' & -> & _ & _ & _ & Hout). simpl.
  rewrite Hout, filter_app, departure_notice_not_stop. apply app_nil_r.
Qed.

(** C10.  [cleanup] removes the identity's entry from the table of active
    shares and nothing else: every other entry and every history, the
    identity's own included, is as before, and [getMetrics] reads the same
    histories once the disconnect handler has run. *)
Theorem cleanup_keeps_history (m : ScreenShareManager) (w : World) (u v : string) :
  screenShareHistory (cleanup m u) = screenShareHistory m
  ∧ getMetrics (cleanup m u) v = getMetrics m v
  ∧ getScreenShareState (cleanup m u) v
      = (if decide (v = u) then None else getScreenShareState m v)
  ∧ getMetrics (screenShareManager (on_disconnect u w).2) v
      = getMetrics (screenShareManager w) v.
Proof.
  split_and!; try reflexivity.
  - unfold getScreenShareState, cleanup. simpl. rewrite lookup_delete.
    destruct (decide (u = v)), (decide (v = u)); congruence.
  - destruct (on_disconnect_run u w) as (w' & -> & Hstore & _). simpl.
    rewrite Hstore. reflexivity.
Qed.

(** C1, the code at the failing input.  The disconnecting connection was
    sharing and its peer is still in the room, yet the peer is handed the
    chat departure notice only: no [screenshare:peer-stopped] notice reaches
    it.  The store has forgotten the share, as the claim says. *)
Theorem on_disconnect_sharing_peer_not_notified :
  let w' := (on_disconnect "u1" sharing_then_gone).2 in
  sharing (getScreenShareState (screenShareManager sharing_then_gone) "u1") = true
  ∧ "u2" ∈ members (rooms sharing_then_gone) "r1"
  ∧ length (filter (λ s, is_disconnect_notice s = true)
                   (received (outbox w') "u2")) = 0%nat
  ∧ map event_name (received (outbox w') "u2") = ["chat:system"]
  ∧ getScreenShareState (screenShareManager w') "u1" = None.
Proof. vm_compute. repeat split. apply list_elem_of_here. Qed.

(** ** The start handler *)

Section StartHandler.

Context (w : World) (id room : string) (constraints : option Constraints.t).

Let now : Z := clock w (ticks w).
Let committed : ScreenShareManager * ScreenShareEvent :=
  startScreenShare (screenShareManager w) now id room constraints.

(** C6.  The store is changed before anything is sent.  The call of
    [startScreenShare] leaves a world [w1] whose store holds the sender's new
    entry, sharing and with the camera off whatever entry the store held
    before, and whose log of messages is as it was.  That is the world in
    which the [try] block reaches its broadcast statement: interrupted there,
    it stops in [w1], with nothing sent; interrupted at the acknowledgement,
    it stops with the same store and with the broadcast as the one message
    sent.  In a run in which nothing throws the two messages follow on that
    store, which is also the final one, and the state the broadcast carries is
    the entry it holds for the sender. *)
Theorem on_screenshare_start_commits_first :
  ∃ w1 w' st,
    call_startScreenShare None id room constraints w = (Normal committed.2, w1)
    ∧ screenShareManager w1 = committed.1
    ∧ outbox w1 = outbox w
    ∧ getScreenShareState (screenShareManager w1) id = Some st
    ∧ (∀ e rest,
         screenshare_start_try
           (Some {| site := InPeerStarted; thrown := e; in_catch := rest |})
           id room constraints w
         = (Throw e, w1))
    ∧ (∀ e rest,
         screenshare_start_try
           (Some {| site := InStartSuccess; thrown := e; in_catch := rest |})
           id room constraints w
         = (Throw e,
            with_outbox w1 (outbox w ++ [peer_started w id room (Some st) now])))
    ∧ on_screenshare_start None id room constraints w = (Normal tt, w')
    ∧ screenShareManager w' = screenShareManager w1
    ∧ getScreenShareState (screenShareManager w') id = Some st
    ∧ isScreenSharing st = true
    ∧ camOn st = false
    ∧ outbox w' = outbox w ++ [ peer_started w id room (Some st) now;
                                start_success id committed.2 ].
Proof.
  subst committed now. simpl. eexists _, _, _. split_and!.
  - reflexivity.
  - reflexivity.
  - reflexivity.
  - simpl. apply startScreenShare_state.
  - reflexivity.
  - intros e rest.
    unfold screenshare_start_try, bind, call_startScreenShare, date_now, call,
      read, emit_peer_started, emit, emit_start_success, throw. simpl.
    unfold getScreenShareState. simpl. rewrite lookup_insert_eq. reflexivity.
  - reflexivity.
  - reflexivity.
  - simpl. apply startScreenShare_state.
  - reflexivity.
  - reflexivity.
  - simpl. unfold getScreenShareState. simpl. rewrite lookup_insert_eq.
    rewrite <- app_assoc. reflexivity.
Qed.

(** The catch block, entered in any world [v] with any thrown value, when
    none of its own statements throws. *)
Lemma catch_block_run (fault : option Fault) (v : World) (e : Thrown) :
  catch_fault fault = None ->
  let result := screenshare_start_catch fault id room e v in
  result.1 = Normal tt
  ∧ getScreenShareState (screenShareManager result.2) id = None
  ∧ last (getMetrics (screenShareManager result.2) id)
      = Some {| type := ev_error; data := ErrorData (start_error e);
                timestamp := clock v (ticks v); userId := id; roomId := room |}
  ∧ outbox result.2 = outbox v ++ [error_reply id e].
Proof.
  intros Hquiet.
  unfold screenshare_start_catch, call_handleScreenShareError, emit_error,
    console_error.
  rewrite Hquiet. simpl. split_and!.
  - reflexivity.
  - unfold getScreenShareState. simpl. apply lookup_delete_eq.
  - rewrite getMetrics_addToHistory, decide_True by reflexivity.
    apply last_push_bounded.
  - reflexivity.
Qed.

(** The catch block when one of its own statements throws: the store has
    been cleared and the error recorded, the exception leaves the block, and
    the reply to the sender has been sent only if the failing statement is
    the log line that follows it. *)
Lemma catch_block_rethrows (fault : option Fault) (v : World) (e : Thrown)
    (s : CatchSite) (e' : Thrown) :
  catch_fault fault = Some {| catch_site := s; rethrown := e' |} ->
  let result := screenshare_start_catch fault id room e v in
  result.1 = Throw e'
  ∧ getScreenShareState (screenShareManager result.2) id = None
  ∧ last (getMetrics (screenShareManager result.2) id)
      = Some {| type := ev_error; data := ErrorData (start_error e);
                timestamp := clock v (ticks v); userId := id; roomId := room |}
  ∧ rooms result.2 = rooms v
  ∧ outbox result.2
      = outbox v ++ (match s with
                     | InErrorLog => [error_reply id e]
                     | _ => []
                     end).
Proof.
  intros Hloud.
  unfold screenshare_start_catch, call_handleScreenShareError, emit_error,
    console_error.
  rewrite Hloud. destruct s; simpl; split_and!;
    first [ reflexivity
          | apply lookup_delete_eq
          | rewrite getMetrics_addToHistory, decide_True by reflexivity;
            apply last_push_bounded
          | symmetry; apply app_nil_r ].
Qed.

(** A fault at the broadcast statement finds the start already recorded: the
    history the catch block extends ends with the start event. *)
Lemma start_recorded_when_broadcast_throws (e : Thrown) :
  let f := {| site := InPeerStarted; thrown := e; in_catch := None |} in
  ∃ errorEvent,
    getMetrics (screenShareManager
                  (on_screenshare_start (Some f) id room constraints w).2) id
      = push_bounded (getMetrics committed.1 id) errorEvent
    ∧ type errorEvent = ev_error
    ∧ last (getMetrics committed.1 id) = Some committed.2.
Proof.
  subst committed now. simpl. eexists. split_and!.
  - rewrite getMetrics_addToHistory, decide_True by reflexivity. reflexivity.
  - reflexivity.
  - rewrite getMetrics_addToHistory, decide_True by reflexivity.
    apply last_push_bounded.
Qed.

(** The world in which the [try] block stops when the fault [f] strikes. *)
Lemma try_block_fault (f : Fault) :
  ∃ v, screenshare_start_try (Some f) id room constraints w = (Throw (thrown f), v)
       ∧ rooms v = rooms w
       ∧ outbox v = outbox w ++ sent_before f w id room constraints.
Proof.
  subst committed now. destruct f as [[leftover | | |] e rest];
    unfold screenshare_start_try, bind, call_startScreenShare, date_now, call,
      read, emit_peer_started, emit, emit_start_success, console_log, throw;
    simpl; eexists; split_and!;
    first [ reflexivity
          | symmetry; apply app_nil_r
          | simpl; rewrite <- !app_assoc; reflexivity ].
Qed.

(** Whichever statement of the [try] block throws, when no statement of the
    catch block throws in turn the handler returns normally; the store then
    holds no entry for the sender and the last event of its history is the
    error event built from the thrown value; the messages added are those the
    [try] block had already sent, followed by one [screenshare:error]
    addressed to the sender alone.  No message goes to the room when the
    fault precedes the broadcast; when it follows it, the
    [screenshare:peer-started] broadcast has been sent and is the only message
    to the room. *)
Lemma on_screenshare_start_fault (f : Fault) :
  in_catch f = None ->
  let result := on_screenshare_start (Some f) id room constraints w in
  result.1 = Normal tt
  ∧ getScreenShareState (screenShareManager result.2) id = None
  ∧ (∃ ts, last (getMetrics (screenShareManager result.2) id)
           = Some {| type := ev_error; data := ErrorData (start_error (thrown f));
                     timestamp := ts; userId := id; roomId := room |})
  ∧ outbox result.2
      = outbox w ++ sent_before f w id room constraints
                 ++ [error_reply id (thrown f)]
  ∧ receivers (error_reply id (thrown f)) = [id]
  ∧ filter (λ s, to_room s = true)
           (sent_before f w id room constraints ++ [error_reply id (thrown f)])
      = (if precedes_broadcast (site f) then []
         else [peer_started w id room (getScreenShareState committed.1 id) now]).
Proof.
  intros Hquiet. cbv zeta. unfold on_screenshare_start, try_catch.
  destruct (try_block_fault f) as (v & -> & _ & Hsent).
  destruct (catch_block_run (Some f) v (thrown f) Hquiet)
    as (Hret & Hget & Hlast & Hout).
  split_and!.
  - exact Hret.
  - exact Hget.
  - eauto.
  - rewrite Hout, Hsent, <- app_assoc. reflexivity.
  - reflexivity.
  - subst committed now. destruct f as [[leftover | | |] e rest]; reflexivity.
Qed.

(** When a statement of the catch block throws as well, the exception leaves
    the handler: the store has been cleared and the error recorded, but the
    sender has been told only if the failing statement is the last log
    line. *)
Lemma on_screenshare_start_fault_rethrown (f : Fault) (s : CatchSite)
    (e' : Thrown) :
  in_catch f = Some {| catch_site := s; rethrown := e' |} ->
  let result := on_screenshare_start (Some f) id room constraints w in
  result.1 = Throw e'
  ∧ getScreenShareState (screenShareManager result.2) id = None
  ∧ rooms result.2 = rooms w
  ∧ outbox result.2
      = outbox w ++ sent_before f w id room constraints
                 ++ (match s with
                     | InErrorLog => [error_reply id (thrown f)]
                     | _ => []
                     end).
Proof.
  intros Hloud. cbv zeta. unfold on_screenshare_start, try_catch.
  destruct (try_block_fault f) as (v & -> & Hrooms & Hsent).
  destruct (catch_block_rethrows (Some f) v (thrown f) s e' Hloud)
    as (Hret & Hget & _ & Hrooms' & Hout).
  split_and!.
  - exact Hret.
  - exact Hget.
  - rewrite Hrooms'. exact Hrooms.
  - rewrite Hout, Hsent, <- app_assoc. reflexivity.
Qed.

End StartHandler.

(** C7, the code at the failing inputs.  A [screenshare:start] that arrives
    without payload never enters the [try] block: destructuring the missing
    payload throws, the exception leaves the listener, and the world is as it
    was, with no error event in the store and no [screenshare:error] for the
    sender.  A start whose room id cannot be converted to a string makes the
    log line that ends [startScreenShare] throw, after the store was written,
    and then the log line that ends [handleScreenShareError]: the second
    exception leaves the listener too, and although the entry has been
    removed again the sender is sent nothing. *)
Theorem screenshare_start_exception_escapes (id : string) (w : World) :
  (let result := screenshare_start_listener None id None w in
   result.1 = Throw destructuring_error
   ∧ result.2 = w)
  ∧ (∀ (room : string) (c : option Constraints.t) (e e' : Thrown),
       let written :=
         (startScreenShare (screenShareManager w) (clock w (ticks w)) id room c).1 in
       let f := {| site := InStartScreenShare written; thrown := e;
                   in_catch := Some {| catch_site := InHandleScreenShareError;
                                       rethrown := e' |} |} in
       let result :=
         screenshare_start_listener (Some f) id
           (Some {| payload_roomId := room; payload_constraints := c |}) w in
       result.1 = Throw e'
       ∧ outbox result.2 = outbox w
       ∧ getScreenShareState (screenShareManager result.2) id = None).
Proof.
  split.
  - split; reflexivity.
  - intros room c e e'. cbv zeta. unfold screenshare_start_listener.
    destruct (on_screenshare_start_fault_rethrown w id room c
                {| site := InStartScreenShare
                             (startScreenShare (screenShareManager w)
                                (clock w (ticks w)) id room c).1;
                   thrown := e;
                   in_catch := Some {| catch_site := InHandleScreenShareError;
                                       rethrown := e' |} |}
                InHandleScreenShareError e' eq_refl)
      as (Hret & Hget & _ & Hout).
    split_and!.
    + exact Hret.
    + rewrite Hout. simpl. rewrite !app_nil_r. reflexivity.
    + exact Hget.
Qed.

(** An exception raised by the acknowledgement, after the broadcast, is
    caught, but the peer has been handed [screenshare:peer-started] already
    although the store ends without a share. *)
Lemma on_screenshare_start_late_fault_reaches_peer :
  let boom := {| site := InStartSuccess;
                 thrown := {| thrown_name := Some "Error";
                              thrown_message := Some "boom" |};
                 in_catch := None |} in
  let w' := (on_screenshare_start (Some boom) "u1" "r1" None two_in_room).2 in
  map event_name (received (outbox w') "u2") = ["screenshare:peer-started"]
  ∧ map event_name (received (outbox w') "u1") = ["screenshare:error"]
  ∧ getScreenShareState (screenShareManager w') "u1" = None.
Proof. vm_compute. repeat split. Qed.

(** ** The room-state query *)

Lemma fold_active_entries (m : ScreenShareManager) (roomSockets : list string) :
  ∀ acc,
    fold_left
      (λ acc socketId,
         match getScreenShareState m socketId with
         | Some state =>
             if isScreenSharing state then acc ++ [(socketId, state)] else acc
         | None => acc
         end)
      roomSockets acc
    = acc ++ omap (active_entry m) roomSockets.
Proof.
  induction roomSockets as [| s rest IH]; intros acc; simpl.
  - symmetry. apply app_nil_r.
  - rewrite IH. unfold active_entry at 2.
    destruct (getScreenShareState m s) as [st |]; [| reflexivity].
    destruct (isScreenSharing st); [| reflexivity].
    rewrite <- app_assoc. reflexivity.
Qed.

Lemma activeScreenShares_of_omap (m : ScreenShareManager) (roomSockets : list string) :
  activeScreenShares_of m roomSockets = omap (active_entry m) roomSockets.
Proof. unfold activeScreenShares_of. apply fold_active_entries. Qed.

Lemma elem_of_activeScreenShares_of (m : ScreenShareManager)
    (roomSockets : list string) (u : string) (st : ScreenShareState) :
  (u, st) ∈ activeScreenShares_of m roomSockets
  ↔ u ∈ roomSockets ∧ getScreenShareState m u = Some st ∧ isScreenSharing st = true.
Proof.
  rewrite activeScreenShares_of_omap, list_elem_of_omap. unfold active_entry. split.
  - intros (s & Hin & Hentry).
    destruct (getScreenShareState m s) as [st' |] eqn:Hget; [| discriminate].
    destruct (isScreenSharing st') eqn:Hon; [| discriminate].
    injection Hentry as -> ->. auto.
  - intros (Hin & Hget & Hon). exists u. rewrite Hget, Hon. auto.
Qed.

(** Each member is listed at most once, in the order of the member set. *)
Lemma activeScreenShares_of_ids (m : ScreenShareManager) (roomSockets : list string) :
  (activeScreenShares_of m roomSockets).*1
    = filter (λ u, sharing (getScreenShareState m u) = true) roomSockets.
Proof.
  rewrite activeScreenShares_of_omap.
  induction roomSockets as [| s rest IH]; [reflexivity |].
  simpl. rewrite filter_cons. unfold active_entry at 1, sharing at 1.
  destruct (getScreenShareState m s) as [st |]; simpl.
  - destruct (isScreenSharing st); simpl.
    + f_equal. exact IH.
    + exact IH.
  - exact IH.
Qed.

(** C8.  The room-state handler sends one message, the reply to the asking
    connection, flagged successful.  Its data pairs a connection with a state
    exactly when the connection is a member of the room, the state is the one
    the store holds for it, and that state is sharing; members are listed in
    the order of the member set, once each.  A room the table does not know
    gives the empty list. *)
Theorem on_get_room_state_reply (w : World) (id roomId : string) :
  let result := on_get_room_state id roomId w in
  let listed := activeScreenShares_of (screenShareManager w) (members (rooms w) roomId) in
  result.1 = Normal tt
  ∧ screenShareManager result.2 = screenShareManager w
  ∧ outbox result.2
      = outbox w ++ [ {| target := Reply id;
                         event_name := "screenshare:get-room-state";
                         payload := RoomState true listed;
                         receivers := [id] |} ]
  ∧ (∀ u st, (u, st) ∈ listed
             ↔ u ∈ members (rooms w) roomId
               ∧ getScreenShareState (screenShareManager w) u = Some st
               ∧ isScreenSharing st = true)
  ∧ listed.*1 = filter (λ u, sharing (getScreenShareState (screenShareManager w) u) = true)
                       (members (rooms w) roomId)
  ∧ (rooms w !! roomId = None -> listed = []).
Proof.
  simpl. split_and!; try reflexivity.
  - intros u st. apply elem_of_activeScreenShares_of.
  - apply activeScreenShares_of_ids.
  - intros Hnone. unfold members. rewrite Hnone. reflexivity.
Qed.

Lemma on_get_room_state_reply_witness :
  (activeScreenShares_of (screenShareManager one_sharing)
     (members (rooms one_sharing) "r1")).*1 = ["u1"]
  ∧ activeScreenShares_of (screenShareManager one_sharing)
      (members (rooms one_sharing) "nowhere") = [].
Proof.
  split.
  - destruct (on_get_room_state_reply one_sharing "u2" "r1")
      as (_ & _ & _ & _ & -> & _).
    vm_compute. reflexivity.
  - destruct (on_get_room_state_reply one_sharing "u2" "nowhere")
      as (_ & _ & _ & _ & _ & Hunknown).
    apply Hunknown. vm_compute. reflexivity.
Defined.

(** ** The media-state reconciliation *)

Lemma determineQuality_empty : determineQuality (Some Constraints.empty) = medium.
Proof. reflexivity. Qed.

(** A connection with a room that reports a share the store does not know is
    registered with the constraints [{}], hence with the default size and the
    medium tier. *)
Lemma on_media_state_change_auto_start (w : World) (id : string) (u : User)
    (roomId : string) (micOn camOn : option bool) :
  getUser (userManager w) id = Some u ->
  truthy (user_roomId u) = Some roomId ->
  sharing (getScreenShareState (screenShareManager w) id) = false ->
  let w' := (on_media_state_change id (Some true) micOn camOn w).2 in
  screenShareManager w'
    = (startScreenShare (screenShareManager w) (clock w (ticks w)) id roomId
         (Some Constraints.empty)).1
  ∧ (getScreenShareState (screenShareManager w') id ?> quality) = Some medium.
Proof.
  intros Huser Hroom Hidle.
  unfold on_media_state_change, bind, read, call, date_now, emit, ret. simpl.
  rewrite Huser. simpl. rewrite Hroom, Hidle. simpl.
  split; [reflexivity |].
  unfold getScreenShareState. simpl. rewrite lookup_insert_eq. reflexivity.
Qed.

Example media_state_change_in_room :
  (getScreenShareState
     (screenShareManager
        (on_media_state_change "u2" (Some true) (Some true) (Some false)
           two_in_room).2) "u2"
     ?> quality) = Some medium.
Proof.
  apply (on_media_state_change_auto_start two_in_room "u2" bob "r1");
    reflexivity.
Qed.

(** * Further properties *)

(** ** Frames *)

Lemma apply_op_other (m : ScreenShareManager) (now : Z) (op : Op) (v : string) :
  op_user op ≠ v ->
  getScreenShareState (apply_op m now op).1 v = getScreenShareState m v
  ∧ getMetrics (apply_op m now op).1 v = getMetrics m v.
Proof.
  intros Hne. unfold getScreenShareState.
  destruct op as [u r c | u r | u r err | u]; simpl in *.
  - rewrite getMetrics_addToHistory, decide_False by exact Hne.
    rewrite lookup_insert_ne by exact Hne. split; reflexivity.
  - rewrite getMetrics_addToHistory, decide_False by exact Hne.
    destruct (activeScreenShares m !! u); simpl;
      [rewrite lookup_insert_ne by exact Hne |]; split; reflexivity.
  - rewrite getMetrics_addToHistory, decide_False by exact Hne.
    rewrite lookup_delete_ne by exact Hne. split; reflexivity.
  - rewrite lookup_delete_ne by exact Hne. split; reflexivity.
Qed.

Lemma run_ops_cons (m : ScreenShareManager) (now : Z) (op : Op)
    (rest : list (Z * Op)) :
  (run_ops m ((now, op) :: rest)).1 = (run_ops (apply_op m now op).1 rest).1
  ∧ (run_ops m ((now, op) :: rest)).2
      = (apply_op m now op).2 ++ (run_ops (apply_op m now op).1 rest).2.
Proof.
  simpl. destruct (apply_op m now op) as [m1 es]. simpl.
  destruct (run_ops m1 rest) as [m2 es']. split; reflexivity.
Qed.

(** X1.  Calls about other identities leave an identity's state and history
    exactly as they were. *)
Theorem run_ops_frame (m : ScreenShareManager) (calls : list (Z * Op)) (v : string) :
  ops_on v calls = [] ->
  getScreenShareState (run_ops m calls).1 v = getScreenShareState m v
  ∧ getMetrics (run_ops m calls).1 v = getMetrics m v.
Proof.
  revert m. induction calls as [| [now op] rest IH]; intros m Hnone.
  - split; reflexivity.
  - unfold ops_on in Hnone. simpl in Hnone. rewrite filter_cons in Hnone.
    destruct (decide (op_user op = v)) as [| Hne]; [discriminate |].
    destruct (run_ops_cons m now op rest) as [-> _].
    destruct (IH (apply_op m now op).1 Hnone) as [-> ->].
    apply apply_op_other. exact Hne.
Qed.

Lemma run_ops_frame_witness :
  getMetrics (run_ops new_manager fifty_one_starts).1 "u3" = [].
Proof.
  destruct (run_ops_frame new_manager fifty_one_starts "u3") as [_ ->].
  - reflexivity.
  - vm_compute. reflexivity.
Defined.

(** ** The sharing flag along a run *)

Lemma apply_op_sharing (m : ScreenShareManager) (now : Z) (op : Op) (u : string) :
  sharing (getScreenShareState (apply_op m now op).1 u)
    = if decide (op_user op = u) then is_start op
      else sharing (getScreenShareState m u).
Proof.
  destruct (decide (op_user op = u)) as [<- | Hne].
  - unfold getScreenShareState.
    destruct op as [u r c | u r | u r err | u]; simpl.
    + rewrite lookup_insert_eq. reflexivity.
    + destruct (activeScreenShares m !! u) eqn:Hget; simpl.
      * rewrite lookup_insert_eq. reflexivity.
      * rewrite Hget. reflexivity.
    + rewrite lookup_delete_eq. reflexivity.
    + rewrite lookup_delete_eq. reflexivity.
  - destruct (apply_op_other m now op u Hne) as [-> _]. reflexivity.
Qed.

Lemma ops_on_cons (u : string) (now : Z) (op : Op) (rest : list (Z * Op)) :
  ops_on u ((now, op) :: rest)
    = if decide (op_user op = u) then op :: ops_on u rest else ops_on u rest.
Proof.
  unfold ops_on. simpl. rewrite filter_cons.
  destruct (decide (op_user op = u)); reflexivity.
Qed.

Lemma last_cons_cases {A} (x : A) (l : list A) :
  last (x :: l) = match last l with Some y => Some y | None => Some x end.
Proof.
  destruct l as [| y l]; [reflexivity |].
  change (last (x :: y :: l)) with (last (y :: l)).
  destruct (last (y :: l)) eqn:Hl; [reflexivity |].
  apply last_None in Hl. discriminate.
Qed.

(** X2.  After any run of calls, an identity is sharing exactly when the last
    call about it is a start; with no call about it, its flag is unchanged. *)
Theorem sharing_after_run (m : ScreenShareManager) (calls : list (Z * Op))
    (u : string) :
  sharing (getScreenShareState (run_ops m calls).1 u)
    = match last (ops_on u calls) with
      | Some op => is_start op
      | None => sharing (getScreenShareState m u)
      end.
Proof.
  revert m. induction calls as [| [now op] rest IH]; intros m.
  - reflexivity.
  - destruct (run_ops_cons m now op rest) as [-> _]. rewrite IH.
    rewrite ops_on_cons, apply_op_sharing.
    destruct (decide (op_user op = u)).
    + rewrite last_cons_cases. destruct (last (ops_on u rest)); reflexivity.
    + reflexivity.
Qed.

Lemma run_ops_app (m : ScreenShareManager) (calls calls' : list (Z * Op)) :
  (run_ops m (calls ++ calls')).1 = (run_ops (run_ops m calls).1 calls').1.
Proof.
  revert m. induction calls as [| [now op] rest IH]; intros m; [reflexivity |].
  rewrite <- app_comm_cons.
  destruct (run_ops_cons m now op (rest ++ calls')) as [-> _].
  destruct (run_ops_cons m now op rest) as [-> _]. apply IH.
Qed.

Lemma ops_on_snoc (u : string) (calls : list (Z * Op)) (now : Z) (op : Op) :
  ops_on u (calls ++ [(now, op)])
    = if decide (op_user op = u) then ops_on u calls ++ [op] else ops_on u calls.
Proof.
  unfold ops_on. rewrite fmap_app, filter_app. simpl.
  rewrite filter_cons, filter_nil.
  destruct (decide (op_user op = u)); [reflexivity | apply app_nil_r].
Qed.

Lemma entry_of_snoc (ops : list Op) (op : Op) :
  entry_of (ops ++ [op])
    = match op with
      | OpStart _ _ c => Some (fresh_state c)
      | OpStop _ _ => stopped_state <$> entry_of ops
      | OpError _ _ _ | OpCleanup _ => None
      end.
Proof.
  unfold entry_of. rewrite filter_app, last_snoc.
  destruct op as [u r c | u r | u r err | u]; simpl;
    rewrite ?filter_cons, ?filter_nil; simpl; rewrite ?last_snoc, ?app_nil_r;
    try reflexivity.
  destruct (last (filter (λ op, is_stop op = false) ops)) as [[? ? c | | |] |];
    try reflexivity.
  simpl. destruct (last ops) as [[| | |] |]; reflexivity.
Qed.

(** X3.  On a fresh store, the entry of an identity after any run of calls is
    decided by the calls about it: there is one exactly when the last call
    other than a stop is a start; it then carries the tier and surface of
    that start, unchanged by the stops that follow, and is marked as not
    sharing, camera on, when the run ends with a stop. *)
Theorem state_after_run (calls : list (Z * Op)) (u : string) :
  getScreenShareState (run_ops new_manager calls).1 u = entry_of (ops_on u calls).
Proof.
  induction calls as [| [now op] calls IH] using rev_ind; [reflexivity |].
  rewrite run_ops_app, ops_on_snoc.
  destruct (run_ops_cons (run_ops new_manager calls).1 now op []) as [-> _].
  change (run_ops ?m []).1 with m.
  destruct (decide (op_user op = u)) as [<- | Hne].
  - rewrite entry_of_snoc, <- IH. unfold getScreenShareState.
    destruct op as [u r c | u r | u r err | u]; simpl.
    + apply lookup_insert_eq.
    + destruct (activeScreenShares (run_ops new_manager calls).1 !! u) eqn:Hget;
        simpl; [apply lookup_insert_eq | exact Hget].
    + apply lookup_delete_eq.
    + apply lookup_delete_eq.
  - destruct (apply_op_other (run_ops new_manager calls).1 now op u Hne) as [-> _].
    exact IH.
Qed.

(** ** Invariants of the store *)

Lemma str_or_nonempty (a : option string) (d : string) : d ≠ "" -> str_or a d ≠ "".
Proof. intros Hd. destruct a as [[| ? ?] |]; simpl; congruence. Qed.

Lemma apply_op_well_formed (m : ScreenShareManager) (now : Z) (op : Op) (u : string) :
  well_formed_entry m u -> well_formed_entry (apply_op m now op).1 u.
Proof.
  intros Hwf. destruct (decide (op_user op = u)) as [<- | Hne].
  - unfold well_formed_entry, getScreenShareState.
    destruct op as [u r c | u r | u r err | u]; simpl.
    + rewrite lookup_insert_eq. intros st [= <-]. simpl. split_and!; eauto.
      * eexists. split; [reflexivity |]. apply str_or_nonempty. discriminate.
      * eexists. split;
          [ rewrite getMetrics_addToHistory, decide_True by reflexivity;
            apply last_push_bounded
          | reflexivity ].
    + destruct (activeScreenShares m !! u) as [old |] eqn:Hget; simpl.
      * rewrite lookup_insert_eq. intros st [= <-]. simpl.
        destruct (Hwf old Hget) as (Hmic & _ & Hq & Hsurface & _).
        split_and!; eauto.
        eexists. split;
          [ rewrite getMetrics_addToHistory, decide_True by reflexivity;
            apply last_push_bounded
          | reflexivity ].
      * rewrite Hget. discriminate.
    + rewrite lookup_delete_eq. discriminate.
    + rewrite lookup_delete_eq. discriminate.
  - unfold well_formed_entry.
    destruct (apply_op_other m now op u Hne) as [-> ->]. exact Hwf.
Qed.

(** X4.  In a store that started empty every entry has the microphone flag
    on, the camera flag opposite to the sharing flag, a tier and a non-empty
    surface label, whatever calls were made; and the last event of the
    identity's history is a start when the entry is sharing and a stop when
    it is not. *)
Theorem store_entries_well_formed (calls : list (Z * Op)) (u : string)
    (st : ScreenShareState) :
  getScreenShareState (run_ops new_manager calls).1 u = Some st ->
  micOn st = true
  ∧ camOn st = negb (isScreenSharing st)
  ∧ is_Some (quality st)
  ∧ (∃ surface, displaySurface st = Some surface ∧ surface ≠ "")
  ∧ ∃ e, last (getMetrics (run_ops new_manager calls).1 u) = Some e
         ∧ type e = (if isScreenSharing st then ev_start else ev_stop).
Proof.
  assert (Hwf : ∀ m, well_formed_entry m u ->
                     well_formed_entry (run_ops m calls).1 u).
  { induction calls as [| [now op] rest IH]; intros m Hm; [exact Hm |].
    destruct (run_ops_cons m now op rest) as [-> _].
    apply IH, apply_op_well_formed, Hm. }
  apply Hwf. intros st'. unfold getScreenShareState. simpl.
  rewrite lookup_empty. discriminate.
Qed.

Lemma store_entries_well_formed_witness :
  ∃ e, last (getMetrics (run_ops new_manager fifty_one_starts).1 "u1") = Some e
       ∧ type e = ev_start.
Proof.
  destruct (store_entries_well_formed fifty_one_starts "u1"
              (fresh_state None)) as (_ & _ & _ & _ & e & He & Htype).
  - vm_compute. reflexivity.
  - exists e. split; [exact He | exact Htype].
Defined.

(** ** What the histories hold *)

Lemma newest_subseteq {A} (n : nat) (l : list A) : newest n l ⊆ l.
Proof. unfold newest. apply subseteq_drop. Qed.

Lemma apply_op_events (m : ScreenShareManager) (now : Z) (op : Op) :
  Forall (λ e, userId e = op_user op ∧ timestamp e = now
               ∧ type e ≠ ev_quality_change)
         (apply_op m now op).2.
Proof.
  destruct op as [u r c | u r | u r err | u]; simpl;
    repeat constructor; discriminate.
Qed.

Lemma run_ops_events (calls : list (Z * Op)) (m : ScreenShareManager) :
  Forall (λ e, type e ≠ ev_quality_change
               ∧ ∃ now op, (now, op) ∈ calls ∧ userId e = op_user op
                           ∧ timestamp e = now ∧ records op = true)
         (run_ops m calls).2.
Proof.
  revert m. induction calls as [| [now op] rest IH]; intros m.
  - constructor.
  - destruct (run_ops_cons m now op rest) as [_ ->]. apply Forall_app. split.
    + pose proof (apply_op_events m now op) as Hev.
      assert (Hrec : (apply_op m now op).2 ≠ [] -> records op = true).
      { destruct op; simpl; congruence. }
      destruct (apply_op m now op).2 as [| e es]; [constructor |].
      eapply Forall_impl; [exact Hev |]. intros e' (Hu & Ht & Hq).
      split; [exact Hq |]. exists now, op.
      split_and!; [apply list_elem_of_here | exact Hu | exact Ht | ].
      apply Hrec. discriminate.
    + eapply Forall_impl; [apply IH |]. intros e (Hq & now' & op' & Hin & Hrest).
      split; [exact Hq |]. exists now', op'.
      split; [apply list_elem_of_further; exact Hin | exact Hrest].
Qed.

(** X5.  On a store that started empty, every event in the history kept for
    an identity is one of its own, of kind start, stop or error -- no
    quality change is ever recorded -- and stems from a call made about that
    identity, whose clock reading it bears. *)
Theorem history_entries_own (calls : list (Z * Op)) (u : string)
    (e : ScreenShareEvent) :
  e ∈ getMetrics (run_ops new_manager calls).1 u ->
  userId e = u
  ∧ type e ≠ ev_quality_change
  ∧ ∃ now op, (now, op) ∈ calls ∧ op_user op = u ∧ records op = true
              ∧ timestamp e = now.
Proof.
  intros Hin.
  rewrite (run_ops_history calls new_manager u [] eq_refl) in Hin.
  apply newest_subseteq in Hin. simpl in Hin. unfold events_of in Hin.
  apply list_elem_of_filter in Hin as [Hu Hin].
  pose proof (run_ops_events calls new_manager) as Hall.
  rewrite Forall_forall in Hall.
  destruct (Hall e Hin) as (Hq & now & op & Hcall & Hop & Ht & Hrec).
  split_and!; [exact Hu | exact Hq |].
  exists now, op. split_and!; [exact Hcall | congruence | exact Hrec | exact Ht].
Qed.

Lemma history_entries_own_witness :
  userId (start_event_at 50) = "u1".
Proof.
  apply (history_entries_own fifty_one_starts "u1" (start_event_at 50)).
  vm_compute. do 49 apply list_elem_of_further. apply list_elem_of_here.
Defined.

(** The identities the store keeps a history for. *)
Lemma apply_op_history_dom (m : ScreenShareManager) (now : Z) (op : Op) :
  dom (screenShareHistory (apply_op m now op).1)
    = dom (screenShareHistory m)
      ∪ (if records op then {[ op_user op ]} else ∅).
Proof.
  destruct op as [u r c | u r | u r err | u]; simpl;
    try (rewrite dom_insert_L; apply (comm_L (∪))).
  - destruct (activeScreenShares m !! u); simpl;
      rewrite dom_insert_L; apply (comm_L (∪)).
  - symmetry. apply (right_id_L ∅ (∪)).
Qed.

(** X6.  No call removes a history: the identities with a history after a run
    are those that had one before and those a start, stop or error was
    called for; [cleanup] takes none away. *)
Theorem history_dom_after_run (m : ScreenShareManager) (calls : list (Z * Op)) :
  dom (screenShareHistory (run_ops m calls).1)
    = dom (screenShareHistory m)
      ∪ list_to_set (op_user <$> filter (λ op, records op = true) calls.*2).
Proof.
  revert m. induction calls as [| [now op] rest IH]; intros m.
  - simpl. symmetry. apply (right_id_L ∅ (∪)).
  - destruct (run_ops_cons m now op rest) as [-> _].
    rewrite IH, apply_op_history_dom. simpl. rewrite filter_cons.
    destruct (records op); simpl.
    + symmetry. apply (assoc_L (∪)).
    + rewrite (right_id_L ∅ (∪)). reflexivity.
Qed.

(** ** More on the tiers *)

(** X7.  For positive sizes the tier grows with the request: a request at
    least as wide and as high never gets a lower tier. *)
Theorem determineQuality_monotone (c c' : option Constraints.t) (w h w' h' : Z) :
  ideal_width c = Some w -> ideal_height c = Some h ->
  ideal_width c' = Some w' -> ideal_height c' = Some h' ->
  0 < w <= w' -> 0 < h <= h' ->
  (tier_rank (determineQuality c) <= tier_rank (determineQuality c'))%nat.
Proof.
  intros Hw Hh Hw' Hh' Hwle Hhle.
  rewrite !determineQuality_sizes, Hw, Hh, Hw', Hh'.
  rewrite !num_or_nonzero by lia. cbv zeta.
  split_thresholds; try lia.
Qed.

Lemma determineQuality_monotone_witness :
  Nat.le
    (tier_rank (determineQuality (Some (Constraints.of_size (Some 1280) (Some 720)))))
    (tier_rank (determineQuality (Some (Constraints.of_size (Some 2560) (Some 1440))))).
Proof.
  apply (determineQuality_monotone _ _ 1280 720 2560 1440);
    first [reflexivity | lia].
Defined.

(** The replacement of 0 by the default breaks the order at 0: a width of 0
    gets a higher tier than a width of 1. *)
Example determineQuality_not_monotone_at_zero :
  determineQuality (Some (Constraints.of_size (Some 0) (Some 1080))) = medium
  ∧ determineQuality (Some (Constraints.of_size (Some 1) (Some 1080))) = low.
Proof. split; reflexivity. Qed.

(** ** [getActiveScreenSharesInRoom] *)

(** X8.  [getActiveScreenSharesInRoom] returns the sharing entries of the
    whole store, whatever room it is asked about; the reply of the
    room-state handler lists those of them whose identity is a member of the
    room. *)
Theorem getActiveScreenSharesInRoom_all_rooms (m : ScreenShareManager)
    (room room' : string) (roomSockets : list string) (u : string)
    (st : ScreenShareState) :
  getActiveScreenSharesInRoom m room = getActiveScreenSharesInRoom m room'
  ∧ (getActiveScreenSharesInRoom m room !! u = Some st
     ↔ getScreenShareState m u = Some st ∧ isScreenSharing st = true)
  ∧ ((u, st) ∈ activeScreenShares_of m roomSockets
     ↔ u ∈ roomSockets ∧ getActiveScreenSharesInRoom m room !! u = Some st).
Proof.
  assert (Hlookup : getActiveScreenSharesInRoom m room !! u = Some st
                    ↔ getScreenShareState m u = Some st ∧ isScreenSharing st = true).
  { unfold getActiveScreenSharesInRoom, getScreenShareState.
    rewrite map_lookup_filter_Some. reflexivity. }
  split_and!.
  - reflexivity.
  - exact Hlookup.
  - rewrite elem_of_activeScreenShares_of, Hlookup. reflexivity.
Qed.

(** ** The stop handler *)

Section StopHandler.

Context (w : World) (id room : string).

Let now : Z := clock w (ticks w).
Let stopped : ScreenShareManager * ScreenShareEvent :=
  stopScreenShare (screenShareManager w) now id room.

(** X9.  When nothing throws, the stop handler commits the stop, broadcasts
    [screenshare:peer-stopped] to the room and acknowledges to the sender --
    also for a connection that had no entry in the store, in which case the
    state broadcast is null and the store has no entry afterwards either.
    With an entry, the state broadcast is that entry marked as stopped. *)
Theorem on_screenshare_stop_run :
  let result := on_screenshare_stop None id room w in
  let before := getScreenShareState (screenShareManager w) id in
  result.1 = Normal tt
  ∧ screenShareManager result.2 = stopped.1
  ∧ getScreenShareState (screenShareManager result.2) id = stopped_state <$> before
  ∧ outbox result.2
      = outbox w ++ [ peer_stopped w id room (stopped_state <$> before) now;
                      stop_success id stopped.2 ].
Proof.
  subst stopped now. simpl.
  assert (Hafter : getScreenShareState
                     (stopScreenShare (screenShareManager w) (clock w (ticks w))
                        id room).1 id
                   = stopped_state <$> getScreenShareState (screenShareManager w) id).
  { unfold getScreenShareState. simpl.
    destruct (activeScreenShares (screenShareManager w) !! id) eqn:Hget; simpl.
    - apply lookup_insert_eq.
    - exact Hget. }
  split_and!.
  - reflexivity.
  - reflexivity.
  - exact Hafter.
  - simpl in Hafter. rewrite Hafter, <- app_assoc. reflexivity.
Qed.

(** X10.  Whichever statement of its [try] block throws, the stop handler
    returns normally and sends the sender one [screenshare:error] with the
    fixed message; unlike the start handler it records no error event and
    leaves the store as the [try] block left it, so a stop that was
    committed stays committed. *)
Theorem on_screenshare_stop_fault (f : StopFault) :
  let result := on_screenshare_stop (Some f) id room w in
  result.1 = Normal tt
  ∧ screenShareManager result.2 = store_at_stop_fault f w id room
  ∧ outbox result.2
      = outbox w ++ sent_before_stop_fault f w id room ++ [stop_error_reply id].
Proof.
  subst stopped now. destruct f as [[leftover | | |] e]; simpl;
    split_and!; try reflexivity; rewrite <- ?app_assoc; reflexivity.
Qed.

End StopHandler.

(** ** The quality-change handler *)

(** X11.  A quality change never touches the store, the registry or the rooms:
    the tier stored at the start stays, and the history gets no event.  The
    room is told exactly when the sender is sharing at that moment. *)
Theorem on_quality_change_advisory (w : World) (id room quality : string) :
  let result := on_quality_change id room quality w in
  result.1 = Normal tt
  ∧ screenShareManager result.2 = screenShareManager w
  ∧ userManager result.2 = userManager w
  ∧ rooms result.2 = rooms w
  ∧ outbox result.2
      = outbox w ++ (if sharing (getScreenShareState (screenShareManager w) id)
                     then [quality_changed w id room quality] else []).
Proof.
  unfold on_quality_change, bind, read. simpl.
  destruct (sharing (getScreenShareState (screenShareManager w) id)); simpl.
  - split_and!; reflexivity.
  - split_and!; try reflexivity. symmetry. apply app_nil_r.
Qed.

(** ** The relays *)

Lemma elem_of_resolve_except (r : gmap string (list string)) (room sender x : string) :
  x ∈ resolve r (ToRoomExcept room sender) ↔ x ∈ members r room ∧ x ≠ sender.
Proof. simpl. rewrite list_elem_of_filter. tauto. Qed.

(** X12.  Each forwarding handler changes nothing in the world but the log, to
    which it adds one message; that message is handed to every member of the
    room named in the request other than the sender, to nobody else, and to
    each once when the member set has no repetition.  The sender need not be
    a member of the room. *)
Theorem on_relay_delivery (w : World) (id room : string) (r : Relay) :
  let result := on_relay id room r w in
  ∃ msg,
    result = (Normal tt, with_outbox w (outbox w ++ [msg]))
    ∧ event_name msg = (relayed id r).1
    ∧ payload msg = (relayed id r).2
    ∧ (∀ x, x ∈ receivers msg ↔ x ∈ members (rooms w) room ∧ x ≠ id)
    ∧ (NoDup (members (rooms w) room) -> NoDup (receivers msg)).
Proof.
  simpl. eexists. split_and!; try reflexivity.
  - intros x. apply elem_of_resolve_except.
  - intros Hnodup. simpl. apply NoDup_filter. exact Hnodup.
Qed.

Lemma on_relay_delivery_witness :
  ∃ msg, (on_relay "u1" "r1" (screenshare_offer "v=0") two_in_room).2
           = with_outbox two_in_room [msg]
         ∧ receivers msg = ["u2"]
         ∧ NoDup (receivers msg).
Proof.
  destruct (on_relay_delivery two_in_room "u1" "r1" (screenshare_offer "v=0"))
    as (msg & Hrun & Hname & Hpayload & Hrecv & Hnodup).
  exists msg. split_and!.
  - rewrite Hrun. reflexivity.
  - injection Hrun as <-. vm_compute. reflexivity.
  - apply Hnodup. apply (bool_decide_unpack _). vm_compute. exact I.
Defined.

(** ** Joining a room *)

Lemma members_socket_join (r : gmap string (list string)) (room id room' : string) :
  members (socket_join r room id) room'
    = if decide (room = room')
      then (if decide (id ∈ members r room) then members r room
            else members r room ++ [id])
      else members r room'.
Proof.
  unfold socket_join, members at 1. rewrite lookup_insert.
  destruct (decide (room = room')); reflexivity.
Qed.

Lemma truthy_nonempty (s : string) : s ≠ "" -> truthy (Some s) = Some s.
Proof. intros Hs. destruct s; [congruence | reflexivity]. Qed.

(** X13.  [chat:join] with an empty room id changes nothing.  With a room id,
    the connection becomes a member of that room and nothing else changes in
    the room table: no connection leaves any room -- the joining one stays in
    the rooms it was in -- member sets keep having no repetition, and the
    store of shares is untouched. *)
Theorem on_chat_join_rooms (w : World) (id room : string) :
  let w' := (on_chat_join id room w).2 in
  (room = "" -> on_chat_join id room w = (Normal tt, w))
  ∧ (room ≠ "" ->
     id ∈ members (rooms w') room
     ∧ (∀ r x, x ∈ members (rooms w') r
               ↔ x ∈ members (rooms w) r ∨ (r = room ∧ x = id))
     ∧ (∀ r, NoDup (members (rooms w) r) -> NoDup (members (rooms w') r))
     ∧ screenShareManager w' = screenShareManager w).
Proof.
  split.
  - intros ->. reflexivity.
  - intros Hroom. unfold on_chat_join. rewrite (truthy_nonempty room Hroom). simpl.
    assert (Hmem : ∀ r x, x ∈ members (socket_join (rooms w) room id) r
                          ↔ x ∈ members (rooms w) r ∨ (r = room ∧ x = id)).
    { intros r x. rewrite members_socket_join.
      destruct (decide (room = r)) as [<- | Hne].
      - destruct (decide (id ∈ members (rooms w) room)) as [Hin | Hout].
        + split; [tauto | intros [? | [_ ->]]; assumption].
        + rewrite elem_of_app, list_elem_of_singleton. tauto.
      - split; [tauto | intros [? | [-> _]]; [assumption | congruence]]. }
    split_and!.
    + apply Hmem. right. split; reflexivity.
    + exact Hmem.
    + intros r Hnodup. rewrite members_socket_join.
      destruct (decide (room = r)) as [<- | Hne]; [| exact Hnodup].
      destruct (decide (id ∈ members (rooms w) room)) as [Hin | Hout];
        [exact Hnodup |].
      apply NoDup_app. split_and!; [exact Hnodup | | apply NoDup_singleton].
      intros x Hx Hx'. apply list_elem_of_singleton in Hx'. congruence.
    + reflexivity.
Qed.

Lemma on_chat_join_rooms_witness :
  on_chat_join "u1" "" two_in_room = (Normal tt, two_in_room)
  ∧ "u1" ∈ members (rooms (on_chat_join "u1" "r2" two_in_room).2) "r2"
  ∧ "u1" ∈ members (rooms (on_chat_join "u1" "r2" two_in_room).2) "r1".
Proof.
  split_and!.
  - apply (on_chat_join_rooms two_in_room "u1" ""). reflexivity.
  - destruct (on_chat_join_rooms two_in_room "u1" "r2") as [_ Hjoin].
    destruct Hjoin as (Hin & _); [discriminate | exact Hin].
  - destruct (on_chat_join_rooms two_in_room "u1" "r2") as [_ Hjoin].
    destruct Hjoin as (_ & Hmem & _); [discriminate |].
    apply Hmem. left. vm_compute. apply list_elem_of_here.
Defined.

(** ** The media-state reconciliation, in general *)

Section MediaState.

Context (w : World) (id : string) (micOn camOn : option bool).

(** X14.  For a connection the registry places in a room, a media-state report
    with a sharing flag brings the store in line with the flag: a share is
    started with the constraints [{}] or stopped only when the flag differs
    from what the store holds, so that a repeated report changes nothing
    more.  The room gets one [peer-media-state-change]; no
    [screenshare:peer-started] or [peer-stopped] is sent. *)
Theorem on_media_state_change_reconciles (u : User) (room : string) (flag : bool) :
  getUser (userManager w) id = Some u ->
  truthy (user_roomId u) = Some room ->
  let result := on_media_state_change id (Some flag) micOn camOn w in
  result.1 = Normal tt
  ∧ screenShareManager result.2
      = reconciled (screenShareManager w) (clock w (ticks w)) id room flag
  ∧ sharing (getScreenShareState (screenShareManager result.2) id) = flag
  ∧ outbox result.2
      = outbox w ++ [media_state_changed w id room (Some flag) micOn camOn]
  ∧ screenShareManager
      (on_media_state_change id (Some flag) micOn camOn result.2).2
      = screenShareManager result.2.
Proof.
  intros Huser Hroom.
  assert (Hrun : ∀ v, userManager v = userManager w ->
            let r := on_media_state_change id (Some flag) micOn camOn v in
            r.1 = Normal tt
            ∧ screenShareManager r.2
                = reconciled (screenShareManager v) (clock v (ticks v)) id room flag
            ∧ userManager r.2 = userManager w
            ∧ outbox r.2
                = outbox v ++ [media_state_changed v id room (Some flag) micOn camOn]).
  { intros v Hv. unfold on_media_state_change, reconciled, bind, read. simpl.
    rewrite Hv, Huser. simpl. rewrite Hroom.
    destruct flag, (sharing (getScreenShareState (screenShareManager v) id));
      simpl; split_and!; first [reflexivity | exact Hv]. }
  assert (Hflag : ∀ m now,
            sharing (getScreenShareState (reconciled m now id room flag) id) = flag).
  { intros m now. unfold reconciled.
    destruct (bool_decide_reflect (flag = sharing (getScreenShareState m id)))
      as [Heq | Hne]; [symmetry; exact Heq |].
    destruct flag.
    - rewrite startScreenShare_state. reflexivity.
    - unfold getScreenShareState in *. simpl.
      destruct (activeScreenShares m !! id) eqn:Hget; simpl.
      + rewrite lookup_insert_eq. reflexivity.
      + rewrite Hget. reflexivity. }
  destruct (Hrun w eq_refl) as (Hret & Hstore & Husers & Hout).
  split_and!; [exact Hret | exact Hstore | | exact Hout |].
  - rewrite Hstore. apply Hflag.
  - destruct (Hrun (on_media_state_change id (Some flag) micOn camOn w).2 Husers)
      as (_ & -> & _).
    unfold reconciled at 1. rewrite Hstore, Hflag.
    rewrite bool_decide_eq_true_2 by reflexivity. reflexivity.
Qed.

(** X15.  A media-state report from a connection the registry does not know,
    or knows without a room, is dropped: nothing is stored and nothing is
    sent.  A report without a sharing flag is forwarded to the room and
    leaves the store alone. *)
Theorem on_media_state_change_ignored (isScreenSharing : option bool) :
  (truthy (getUser (userManager w) id ?> user_roomId) = None ->
   on_media_state_change id isScreenSharing micOn camOn w = (Normal tt, w))
  ∧ (∀ room, truthy (getUser (userManager w) id ?> user_roomId) = Some room ->
     let result := on_media_state_change id None micOn camOn w in
     screenShareManager result.2 = screenShareManager w
     ∧ outbox result.2 = outbox w ++ [media_state_changed w id room None micOn camOn]).
Proof.
  split.
  - intros Hnone. unfold on_media_state_change, bind, read. simpl.
    rewrite Hnone. reflexivity.
  - intros room Hroom. unfold on_media_state_change, bind, read. simpl.
    rewrite Hroom. split; reflexivity.
Qed.

End MediaState.

Lemma on_media_state_change_reconciles_witness :
  sharing (getScreenShareState
             (screenShareManager
                (on_media_state_change "u1" (Some false) None None first_sharing).2)
             "u1") = false.
Proof.
  apply (on_media_state_change_reconciles first_sharing "u1" None None alice "r1" false);
    reflexivity.
Defined.

Lemma on_media_state_change_ignored_witness :
  on_media_state_change "u9" (Some true) None None two_in_room
    = (Normal tt, two_in_room)
  ∧ screenShareManager (on_media_state_change "u1" None None None two_in_room).2
      = screenShareManager two_in_room.
Proof.
  split.
  - apply (on_media_state_change_ignored two_in_room "u9" None None (Some true)).
    reflexivity.
  - destruct (on_media_state_change_ignored two_in_room "u1" None None None)
      as [_ Hfwd].
    apply (Hfwd "r1"). reflexivity.
Defined.

(** ** The room-state reply after the other handlers *)

Lemma listed_iff (w : World) (room id : string) :
  listed w room id
  ↔ id ∈ members (rooms w) room
    ∧ sharing (getScreenShareState (screenShareManager w) id) = true.
Proof.
  unfold listed. rewrite activeScreenShares_of_ids, list_elem_of_filter. tauto.
Qed.

Lemma start_fault_store (f : Fault) (w : World) (id room : string)
    (c : option Constraints.t) :
  rooms (on_screenshare_start (Some f) id room c w).2 = rooms w
  ∧ getScreenShareState
      (screenShareManager (on_screenshare_start (Some f) id room c w).2) id = None.
Proof.
  unfold getScreenShareState.
  destruct f as [[leftover | | |] e [[[| |] e'] |]]; simpl; split;
    first [reflexivity | apply lookup_delete_eq].
Qed.

Lemma stop_store (w : World) (id room : string) :
  rooms (on_screenshare_stop None id room w).2 = rooms w
  ∧ sharing (getScreenShareState
               (screenShareManager (on_screenshare_stop None id room w).2) id)
    = false.
Proof.
  simpl. split; [reflexivity |]. unfold getScreenShareState. simpl.
  destruct (activeScreenShares (screenShareManager w) !! id) eqn:Hget; simpl.
  - rewrite lookup_insert_eq. reflexivity.
  - rewrite Hget. reflexivity.
Qed.

(** X16.  What a room-state query finds about a connection after each of its
    handlers.  After a start that went through, the connection is listed for
    a room exactly when it is a member of that room -- whichever room the
    start request named.  After a start that failed, after a stop and after
    a disconnect it is listed for no room. *)
Theorem room_state_after_handlers (w : World) (id room asked : string)
    (c : option Constraints.t) (f : Fault) :
  (listed (on_screenshare_start None id room c w).2 asked id
   ↔ id ∈ members (rooms w) asked)
  ∧ ¬ listed (on_screenshare_start (Some f) id room c w).2 asked id
  ∧ ¬ listed (on_screenshare_stop None id room w).2 asked id
  ∧ ¬ listed (on_disconnect id w).2 asked id.
Proof.
  rewrite !listed_iff. split_and!.
  - simpl. unfold getScreenShareState. simpl. rewrite lookup_insert_eq. simpl.
    tauto.
  - destruct (start_fault_store f w id room c) as [_ ->]. simpl.
    intros [_ ?]. discriminate.
  - destruct (stop_store w id room) as [_ ->]. intros [_ ?]. discriminate.
  - destruct (on_disconnect_run id w) as (w' & -> & Hstore & _). simpl.
    rewrite Hstore. unfold getScreenShareState. simpl. rewrite lookup_delete_eq.
    intros [_ ?]. discriminate.
Qed.

(** ** Explicit starts and media-state reports together *)

Lemma start_ok_world (w : World) (id room : string) (c : option Constraints.t) :
  let w' := (on_screenshare_start None id room c w).2 in
  screenShareManager w'
    = (startScreenShare (screenShareManager w) (clock w (ticks w)) id room c).1
  ∧ userManager w' = userManager w
  ∧ rooms w' = rooms w.
Proof. split_and!; reflexivity. Qed.

Lemma auto_start_world (w : World) (id : string) (u : User) (room : string)
    (micOn camOn : option bool) :
  getUser (userManager w) id = Some u ->
  truthy (user_roomId u) = Some room ->
  sharing (getScreenShareState (screenShareManager w) id) = false ->
  let w' := (on_media_state_change id (Some true) micOn camOn w).2 in
  screenShareManager w'
    = (startScreenShare (screenShareManager w) (clock w (ticks w)) id room
         (Some Constraints.empty)).1
  ∧ clock w' = clock w
  ∧ ticks w' = S (ticks w).
Proof.
  intros Huser Hroom Hidle. unfold on_media_state_change, bind, read. simpl.
  rewrite Huser. simpl. rewrite Hroom, Hidle. simpl. split_and!; reflexivity.
Qed.

Lemma getMetrics_startScreenShare (m : ScreenShareManager) (now : Z)
    (u r : string) (c : option Constraints.t) :
  getMetrics (startScreenShare m now u r c).1 u
    = push_bounded (getMetrics m u) (startScreenShare m now u r c).2.
Proof.
  unfold startScreenShare. cbv zeta. cbn [fst snd].
  rewrite getMetrics_addToHistory, decide_True by reflexivity. reflexivity.
Qed.

(** X17.  A media-state report that follows an explicit start records nothing
    more.  In the other order the explicit start is recorded again: the
    history then ends with two start events, the first with the constraints
    [{}], and the entry is the one of the explicit request. *)
Theorem explicit_start_and_report (w : World) (id : string) (u : User)
    (room named : string) (c : option Constraints.t) (micOn camOn : option bool) :
  getUser (userManager w) id = Some u ->
  truthy (user_roomId u) = Some room ->
  screenShareManager
    (on_media_state_change id (Some true) micOn camOn
       (on_screenshare_start None id named c w).2).2
    = screenShareManager (on_screenshare_start None id named c w).2
  ∧ (sharing (getScreenShareState (screenShareManager w) id) = false ->
     let reported := (on_media_state_change id (Some true) micOn camOn w).2 in
     let after := screenShareManager (on_screenshare_start None id named c reported).2 in
     ∃ e1 e2,
       data e1 = StartData (Some Constraints.empty) ∧ roomId e1 = room
       ∧ data e2 = StartData c ∧ roomId e2 = named
       ∧ type e1 = ev_start ∧ type e2 = ev_start
       ∧ getMetrics after id
           = push_bounded (push_bounded (getMetrics (screenShareManager w) id) e1) e2
       ∧ getScreenShareState after id = Some (fresh_state c)).
Proof.
  intros Huser Hroom. split.
  - unfold on_media_state_change, bind, read. simpl. rewrite Huser. simpl.
    rewrite Hroom. unfold getScreenShareState. simpl. rewrite lookup_insert_eq.
    reflexivity.
  - intros Hidle reported after.
    destruct (auto_start_world w id u room micOn camOn Huser Hroom Hidle)
      as (Hstore & Hclock & Hticks).
    fold reported in Hstore, Hclock, Hticks.
    destruct (start_ok_world reported id named c) as (Hafter & _).
    fold after in Hafter. rewrite Hstore, Hclock, Hticks in Hafter.
    exists (startScreenShare (screenShareManager w) (clock w (ticks w)) id room
              (Some Constraints.empty)).2,
           (startScreenShare
              (startScreenShare (screenShareManager w) (clock w (ticks w)) id room
                 (Some Constraints.empty)).1
              (clock w (S (ticks w))) id named c).2.
    split_and!; try reflexivity.
    + rewrite Hafter, !getMetrics_startScreenShare. reflexivity.
    + rewrite Hafter. apply startScreenShare_state.
Qed.

Lemma explicit_start_and_report_witness :
  screenShareManager
    (on_media_state_change "u1" (Some true) None None first_sharing).2
    = screenShareManager first_sharing.
Proof.
  destruct (explicit_start_and_report two_in_room "u1" alice "r1" "r1" full_hd
              None None) as [Hsame _]; [reflexivity | reflexivity |].
  exact Hsame.
Defined.

(** ** Requests built by the client *)

Lemma ideal_of_wire (custom : option Hook.Custom) :
  let request := Some (Hook.on_the_wire (Hook.constraints custom)) in
  ideal_width request
    = match custom ?> Hook.c_video ?> Hook.width with
      | Some range => Constraints.ideal range
      | None => Some 1920
      end
  ∧ ideal_height request
    = match custom ?> Hook.c_video ?> Hook.height with
      | Some range => Constraints.ideal range
      | None => Some 1080
      end.
Proof.
  unfold ideal_width, ideal_height. simpl.
  destruct (custom ?> Hook.c_video ?> Hook.width),
           (custom ?> Hook.c_video ?> Hook.height); split; reflexivity.
Qed.

(** X18.  Whatever custom constraints the hook is called with, the coordinator
    assigns its request the tier of the custom ideal width and height alone:
    the defaults the hook fills in are the coordinator's own, 1920 x 1080, so
    a call without sizes is stored as medium.  The hook never names a display
    surface, so the surface stored is always unknown. *)
Theorem hook_request_tier (custom : option Hook.Custom) (m : ScreenShareManager)
    (now : Z) (u r : string) :
  let request := Some (Hook.on_the_wire (Hook.constraints custom)) in
  ∃ st,
    getScreenShareState (startScreenShare m now u r request).1 u = Some st
    ∧ quality st
        = Some (determineQuality
                  (Some (Constraints.of_size
                           (custom ?> Hook.c_video ?> Hook.width ?> Constraints.ideal)
                           (custom ?> Hook.c_video ?> Hook.height ?> Constraints.ideal))))
    ∧ displaySurface st = Some "unknown"
    ∧ (custom = None -> quality st = Some medium).
Proof.
  intros request. eexists. split; [apply startScreenShare_state |].
  cbn [quality displaySurface]. split_and!.
  - f_equal. rewrite !determineQuality_sizes.
    destruct (ideal_of_wire custom) as [Hw Hh]. fold request in Hw, Hh.
    rewrite Hw, Hh. unfold ideal_width, ideal_height. simpl.
    destruct (custom ?> Hook.c_video ?> Hook.width) as [[[w |] ?] |],
             (custom ?> Hook.c_video ?> Hook.height) as [[[h |] ?] |];
      simpl; try reflexivity;
      unfold num_or;
      repeat match goal with
             | |- context [?a =? 0] => destruct (Z.eqb_spec a 0)
             end; reflexivity.
  - reflexivity.
  - intros ->. reflexivity.
Qed.

Lemma hook_request_tier_witness :
  ∃ st, getScreenShareState
          (startScreenShare new_manager 0 "u1" "r1"
             (Some (Hook.on_the_wire (Hook.constraints None)))).1 "u1" = Some st
        ∧ quality st = Some medium.
Proof.
  destruct (hook_request_tier None new_manager 0 "u1" "r1")
    as (st & Hst & _ & _ & Hq).
  exists st. split; [exact Hst | apply Hq; reflexivity].
Defined.

(** X19.  [handleStartShare] calls [onStartShare] exactly for the three preset
    ids.  Handed to the hook, its argument makes a request the coordinator
    stores as ultra for the preset ultra, as medium for the preset labelled
    High Quality and as low for the one labelled Medium Quality, with or
    without audio. *)
Theorem modal_preset_tiers (selectedQuality : string) (includeAudio : bool) :
  match Modal.handleStartShare selectedQuality includeAudio with
  | Some custom =>
      selectedQuality ∈ Modal.id <$> Modal.qualityPresets
      ∧ determineQuality (Some (Hook.on_the_wire (Hook.constraints (Some custom))))
          = stored_tier selectedQuality
  | None => selectedQuality ∉ Modal.id <$> Modal.qualityPresets
  end.
Proof.
  unfold Modal.handleStartShare, stored_tier. simpl.
  destruct (bool_decide_reflect ("high" = selectedQuality)) as [<- | Hhigh].
  { split; [| reflexivity]. apply list_elem_of_here. }
  destruct (bool_decide_reflect ("medium" = selectedQuality)) as [<- | Hmedium].
  { split; [| reflexivity]. apply list_elem_of_further, list_elem_of_here. }
  destruct (bool_decide_reflect ("ultra" = selectedQuality)) as [<- | Hultra].
  { split; [| reflexivity].
    do 2 apply list_elem_of_further. apply list_elem_of_here. }
  intros Hin. repeat (apply elem_of_cons in Hin as [Heq | Hin]; [congruence |]).
  apply elem_of_nil in Hin. exact Hin.
Qed.

(** X20.  The message the hook shows for a failed start is never empty: it is
    one of five fixed texts or the non-empty message of what was thrown. *)
Theorem hook_errorMessage_not_empty (error : Thrown) :
  Hook.errorMessage error ≠ ""
  ∧ (Hook.errorMessage error
       ∈ [ "Screen sharing permission was denied";
           "Screen sharing is not supported in this browser";
           "No screen capture source available";
           "Screen sharing was cancelled";
           "Failed to start screen sharing" ]
     ∨ thrown_message error = Some (Hook.errorMessage error)).
Proof.
  unfold Hook.errorMessage.
  repeat match goal with
         | |- context [bool_decide ?P] => destruct (bool_decide P)
         end;
    try (split; [discriminate | left; repeat first [apply list_elem_of_here | apply list_elem_of_further]]).
  destruct (thrown_message error) as [[| a s] |].
  - split; [discriminate | left]. do 4 apply list_elem_of_further. apply list_elem_of_here.
  - split; [discriminate | right; reflexivity].
  - split; [discriminate | left]. do 4 apply list_elem_of_further. apply list_elem_of_here.
Qed.

(** X21.  The texts of the share button agree with what a click does: when the
    button is enabled, tooltip and label both say Stop if a share is on and
    Start if not; it is disabled exactly when the tooltip says that sharing
    is unavailable or in progress. *)
Theorem button_texts_agree (p : Button.Props) :
  (Button.button_disabled p = false ->
   if Button.isSharing p
   then Button.getTooltipText p = "Stop screen share"
        ∧ Button.getAriaLabel p = "Stop screen sharing"
   else Button.getTooltipText p = "Start screen share"
        ∧ Button.getAriaLabel p = "Start screen sharing")
  ∧ (Button.button_disabled p = true
     ↔ Button.getTooltipText p = "Screen sharing not available"
       ∨ Button.getTooltipText p = "Processing...").
Proof.
  destruct p as [[] [] []]; vm_compute; split;
    first [ discriminate | intros _; split; reflexivity
          | split; [intros _; auto | reflexivity]
          | split; [discriminate | intros [? | ?]; discriminate] ].
Qed.

Lemma button_texts_agree_witness :
  Button.getTooltipText
    {| Button.isSharing := true; Button.isLoading := false;
       Button.disabled := false |} = "Stop screen share".
Proof.
  destruct (button_texts_agree
              {| Button.isSharing := true; Button.isLoading := false;
                 Button.disabled := false |}) as [Henabled _].
  apply Henabled. reflexivity.
Defined.


(** ** The calls of the hook *)

Lemma errorMessage_nonempty (e : Thrown) : Hook.errorMessage e ≠ "".
Proof.
  unfold Hook.errorMessage.
  repeat match goal with
         | |- context [bool_decide ?P] => destruct (bool_decide P)
         end; try discriminate.
  destruct (thrown_message e) as [[| a s] |]; discriminate.
Qed.

Lemma socket_messages_app (es es' : list Hook.Effect) :
  Hook.socket_messages (es ++ es')
    = Hook.socket_messages es ++ Hook.socket_messages es'.
Proof. apply filter_app. Qed.

Section HookCalls.

Context (p : Hook.Props) (b : Hook.Browser) (custom : option Hook.Custom)
        (c : Hook.Client).

(** X22.  A call of the hook's [startScreenShare] returns true exactly when a
    socket and a room id are there, no share is on, the browser supports
    capture and resolves with a stream that has a video track, and the track
    replacement, if there is a sender, does not reject.  It emits
    [screenshare:start], with the merged constraints, exactly then, and
    nothing on the socket otherwise.  A call that fails for another reason
    than a share being on leaves a non-empty error in the state, and after a
    failed attempt the loading flag is off. *)
Theorem hook_start_outcome :
  let ok := (Hook.startScreenShare p b custom c).1 in
  let c' := (Hook.startScreenShare p b custom c).2 in
  (ok = true
   ↔ ∃ room stream track rest,
       Hook.connected p = Some room
       ∧ Hook.isSharing (Hook.state c) = false
       ∧ Hook.supported b = true
       ∧ Hook.displayMedia b = inr stream
       ∧ Hook.videoTracks stream = track :: rest
       ∧ (Hook.videoSender c = None ∨ Hook.replaceTrack b = None))
  ∧ Hook.socket_messages (Hook.effects c')
      = Hook.socket_messages (Hook.effects c)
        ++ (if ok
            then [ Hook.SocketEmit "screenshare:start"
                     (default "" (Hook.connected p))
                     (Some (Hook.constraints custom)) ]
            else [])
  ∧ Hook.isSharing (Hook.state c') = Hook.isSharing (Hook.state c) || ok
  ∧ (ok = false -> Hook.isSharing (Hook.state c) = false ->
     (∃ message, Hook.error (Hook.state c') = Some message ∧ message ≠ "")
     ∧ (is_Some (Hook.connected p) -> Hook.isLoading (Hook.state c') = false)).
Proof.
  unfold Hook.startScreenShare.
  destruct (Hook.connected p) as [room |] eqn:Hroom; simpl.
  2: { split_and!.
       - split; [discriminate | intros (? & ? & ? & ? & ? & _); discriminate].
       - rewrite socket_messages_app. reflexivity.
       - symmetry. apply orb_false_r.
       - intros _ _. split; [eexists; split; [reflexivity | discriminate] |].
         intros [? ?]. discriminate. }
  destruct (Hook.isSharing (Hook.state c)) eqn:Hsharing; simpl.
  { split_and!.
    - split; [discriminate | intros (? & ? & ? & ? & _ & ? & _); discriminate].
    - rewrite socket_messages_app. reflexivity.
    - exact Hsharing.
    - intros _ ?. discriminate. }
  unfold Hook.start_attempt.
  destruct (Hook.supported b) eqn:Hsup; simpl.
  2: { split_and!.
       - split; [discriminate | intros (? & ? & ? & ? & _ & _ & ? & _); discriminate].
       - rewrite socket_messages_app. reflexivity.
       - exact Hsharing.
       - intros _ _. split; [| reflexivity].
         eexists. split; [reflexivity | discriminate]. }
  destruct (Hook.displayMedia b) as [rejected | stream] eqn:Hmedia; simpl.
  { split_and!.
    - split; [discriminate | intros (? & ? & ? & ? & _ & _ & _ & ? & _); discriminate].
    - rewrite socket_messages_app. reflexivity.
    - exact Hsharing.
    - intros _ _. split; [| reflexivity].
      eexists. split; [reflexivity | apply errorMessage_nonempty]. }
  destruct (Hook.videoTracks stream) as [| track rest] eqn:Htracks; simpl.
  { split_and!.
    - split; [discriminate |].
      intros (? & ? & ? & ? & _ & _ & _ & [= <-] & Ht & _). congruence.
    - rewrite socket_messages_app. reflexivity.
    - exact Hsharing.
    - intros _ _. split; [| reflexivity].
      eexists. split; [reflexivity | discriminate]. }
  destruct (Hook.videoSender c) as [sender |] eqn:Hsender,
           (Hook.replaceTrack b) as [rejected |] eqn:Hreplace; simpl.
  - split_and!.
    + split; [discriminate |].
      intros (? & ? & ? & ? & _ & _ & _ & _ & _ & [? | ?]); discriminate.
    + rewrite socket_messages_app. reflexivity.
    + exact Hsharing.
    + intros _ _. split; [| reflexivity].
      eexists. split; [reflexivity | apply errorMessage_nonempty].
  - split_and!.
    + split; [| reflexivity]. intros _. exists room, stream, track, rest. auto 10.
    + rewrite socket_messages_app. reflexivity.
    + first [reflexivity | rewrite Hsharing; reflexivity].
    + discriminate.
  - split_and!.
    + split; [| reflexivity]. intros _. exists room, stream, track, rest. auto 10.
    + rewrite socket_messages_app. reflexivity.
    + first [reflexivity | rewrite Hsharing; reflexivity].
    + discriminate.
  - split_and!.
    + split; [| reflexivity]. intros _. exists room, stream, track, rest. auto 10.
    + rewrite socket_messages_app. reflexivity.
    + first [reflexivity | rewrite Hsharing; reflexivity].
    + discriminate.
Qed.

(** X23.  A start that went through followed by a stop is a round trip: the
    stop returns true, the state is idle again with no stream, constraints or
    error, the refs are cleared, [stop()] has been called on every track of
    the captured stream, the sender carries no track, and the socket has been
    sent [screenshare:start] and then [screenshare:stop], for the same
    room. *)
Theorem hook_start_stop_round_trip (room : string) (captured : Hook.Stream)
    (track : nat) (rest : list nat) :
  Hook.connected p = Some room ->
  Hook.isSharing (Hook.state c) = false ->
  Hook.supported b = true ->
  Hook.displayMedia b = inr captured ->
  Hook.videoTracks captured = track :: rest ->
  Hook.replaceTrack b = None ->
  let started := (Hook.startScreenShare p b custom c).2 in
  let ok := (Hook.stopScreenShare p None started).1 in
  let c' := (Hook.stopScreenShare p None started).2 in
  ok = true
  ∧ Hook.state c'
      = {| Hook.isSharing := false; Hook.isLoading := false; Hook.error := None;
           Hook.stream := None; Hook.state_constraints := None |}
  ∧ Hook.streamRef c' = None ∧ Hook.trackRef c' = None
  ∧ (∀ t, t ∈ Hook.getTracks captured -> t ∈ Hook.stopped c')
  ∧ Hook.videoSender c' = (λ _, None) <$> Hook.videoSender c
  ∧ Hook.socket_messages (Hook.effects c')
      = Hook.socket_messages (Hook.effects c)
        ++ [ Hook.SocketEmit "screenshare:start" room (Some (Hook.constraints custom));
             Hook.SocketEmit "screenshare:stop" room None ].
Proof.
  intros Hroom Hidle Hsup Hmedia Htracks Hreplace.
  unfold Hook.startScreenShare, Hook.start_attempt, Hook.stopScreenShare.
  rewrite Hroom, Hidle, Hsup, Hmedia, Htracks, Hreplace. simpl.
  destruct (Hook.videoSender c) as [sender |] eqn:Hsender; simpl;
    rewrite ?Hroom, ?Hsender; simpl; split_and!;
    first [ reflexivity
          | intros t Ht; apply elem_of_union; right;
            apply elem_of_list_to_set; exact Ht
          | rewrite !socket_messages_app, <- app_assoc; reflexivity
          | exact Hsender ].
Qed.

(** X24.  A capture that succeeded but whose start then failed -- no video
    track in the stream, or a rejected track replacement -- is not undone:
    [stop()] is called on none of its tracks, the state is not sharing, and a
    call of [stopScreenShare] returns false and changes nothing, so the hook
    has no call that stops the captured tracks.  After a rejected
    replacement the stream even stays in the ref. *)
Theorem hook_failed_start_keeps_capture (room : string) (captured : Hook.Stream) :
  Hook.connected p = Some room ->
  Hook.isSharing (Hook.state c) = false ->
  Hook.supported b = true ->
  Hook.displayMedia b = inr captured ->
  Hook.videoTracks captured = []
  ∨ (is_Some (Hook.videoSender c) ∧ is_Some (Hook.replaceTrack b)) ->
  let ok := (Hook.startScreenShare p b custom c).1 in
  let c' := (Hook.startScreenShare p b custom c).2 in
  ok = false
  ∧ Hook.stopped c' = Hook.stopped c
  ∧ Hook.isSharing (Hook.state c') = false
  ∧ (∀ answer, Hook.stopScreenShare p answer c' = (false, c'))
  ∧ (Hook.videoTracks captured ≠ [] -> Hook.streamRef c' = Some captured).
Proof.
  intros Hroom Hidle Hsup Hmedia Hfail.
  unfold Hook.startScreenShare, Hook.start_attempt.
  rewrite Hroom, Hidle, Hsup, Hmedia. simpl.
  destruct (Hook.videoTracks captured) as [| track rest] eqn:Htracks; simpl.
  - split_and!;
      first [ reflexivity | exact Hidle | congruence
            | intros answer; unfold Hook.stopScreenShare; simpl;
              rewrite Hidle; reflexivity ].
  - destruct Hfail as [? | [[sender Hsender] [rejected Hreplace]]]; [discriminate |].
    rewrite Hsender, Hreplace. simpl.
    split_and!;
      first [ reflexivity | exact Hidle
            | intros answer; unfold Hook.stopScreenShare; simpl;
              rewrite Hidle; reflexivity ].
Qed.

End HookCalls.

Lemma hook_start_outcome_witness :
  (Hook.startScreenShare in_room granting None on_camera).1 = true.
Proof.
  destruct (hook_start_outcome in_room granting None on_camera) as [[_ Hok] _].
  apply Hok. exists "r1", screen_and_sound, 7%nat, [].
  split_and!; first [reflexivity | right; reflexivity].
Defined.

Lemma hook_start_stop_round_trip_witness :
  (Hook.stopScreenShare in_room None
     (Hook.startScreenShare in_room granting None on_camera).2).1 = true.
Proof.
  apply (hook_start_stop_round_trip in_room granting None on_camera "r1"
           screen_and_sound 7%nat []); reflexivity.
Defined.

Lemma hook_failed_start_keeps_capture_witness :
  Hook.streamRef
    (Hook.startScreenShare in_room rejecting_replacement None on_camera).2
    = Some screen_and_sound.
Proof.
  assert (Hfail : Hook.videoTracks screen_and_sound = []
                  ∨ (is_Some (Hook.videoSender on_camera)
                     ∧ is_Some (Hook.replaceTrack rejecting_replacement))).
  { right. split; eexists; reflexivity. }
  destruct (hook_failed_start_keeps_capture in_room rejecting_replacement None
              on_camera "r1" screen_and_sound eq_refl eq_refl eq_refl eq_refl
              Hfail) as (_ & _ & _ & _ & Href).
  apply Href. discriminate.
Defined.

(** ** The coordinator as a whole *)

Lemma run_ops_well_formed (calls : list (Z * Op)) (u : string) :
  ∀ m, well_formed_entry m u -> well_formed_entry (run_ops m calls).1 u.
Proof.
  induction calls as [| [now op] rest IH]; intros m Hm; [exact Hm |].
  destruct (run_ops_cons m now op rest) as [-> _].
  apply IH, apply_op_well_formed, Hm.
Qed.

(** What a listener does to the store is what a few calls of the store do. *)
Lemma listener_store_calls (e : Event) (w : World) :
  ∃ calls, screenShareManager (listener e w).2
           = (run_ops (screenShareManager w) calls).1.
Proof.
  destruct e as [id room | id room c | id room | id room q | id room | id room r
                | id flag mic cam | id]; simpl.
  - exists []. unfold on_chat_join. destruct (truthy (Some room)); reflexivity.
  - exists [(clock w (ticks w), OpStart id room c)]. reflexivity.
  - exists [(clock w (ticks w), OpStop id room)]. reflexivity.
  - exists []. unfold on_quality_change, bind, read. simpl.
    destruct (sharing (getScreenShareState (screenShareManager w) id)); reflexivity.
  - exists []. reflexivity.
  - exists []. reflexivity.
  - unfold on_media_state_change, bind, read. simpl.
    destruct (truthy (getUser (userManager w) id ?> user_roomId)) as [room |];
      [| exists []; reflexivity].
    destruct flag as [[|] |]; simpl.
    + destruct (sharing (getScreenShareState (screenShareManager w) id)); simpl.
      * exists []. reflexivity.
      * exists [(clock w (ticks w), OpStart id room (Some Constraints.empty))].
        reflexivity.
    + destruct (sharing (getScreenShareState (screenShareManager w) id)); simpl.
      * exists [(clock w (ticks w), OpStop id room)]. reflexivity.
      * exists []. reflexivity.
    + exists []. reflexivity.
  - exists [(0, OpCleanup id)].
    destruct (on_disconnect_run id w) as (w' & -> & Hstore & _). simpl.
    rewrite Hstore. reflexivity.
Qed.

Lemma handle_all_store_calls (events : list Event) :
  ∀ w, ∃ calls, screenShareManager (handle_all events w)
                = (run_ops (screenShareManager w) calls).1.
Proof.
  induction events as [| e rest IH]; intros w.
  - exists []. reflexivity.
  - destruct (listener_store_calls e w) as [calls Hcalls].
    destruct (IH (listener e w).2) as [calls' Hcalls'].
    exists (calls ++ calls'). simpl. fold (handle_all rest (listener e w).2).
    rewrite Hcalls', Hcalls, run_ops_app. reflexivity.
Qed.


